(** * Entry creation in vibe-worldbuilding: a shallow embedding

    The development embeds [vibe_worldbuilding/entries/creation.py]
    (the [create_world_entry] handler, [_get_world_overview],
    [_create_entry_file], [_generate_optimized_entry_image]) and
    [vibe_worldbuilding/tools/entries.py] (the [handle_entry_tool] router)
    as functions over an explicit file-system state, with Python exceptions
    as an error result.  The functions [creation.py] imports from modules
    that are not among the sources are parameters of the embedding
    ([Helpers]); [ContentParsing] and [Utilities] give the instance the
    specification describes.

    Conventions.
    - A Python [str] is a [string]; the model covers ASCII text: a character
      above 127 is carried through every operation unchanged and counts
      neither as whitespace nor as a cased letter.
    - A [pathlib.Path] is the list of its components, innermost first, of an
      absolute POSIX path.
    - The [print] calls of the source only log; they are left out, except
      where evaluating their argument can raise. *)

From Stdlib Require Import Ascii String.
From stdpp Require Import base gmap strings list fin_maps.

(** ** Characters and Python [str] methods *)

Module PyStr.

Definition nl : string := String "010"%char EmptyString.
Definition dquote : string := String "034"%char EmptyString.

Definition code (a : ascii) : N := N_of_ascii a.

(** [str.isspace] on one ASCII character: TAB, LF, VT, FF, CR, the four
    separators FS, GS, RS, US, and the space. *)
Definition is_space (a : ascii) : bool :=
  let n := code a in
  ((9 <=? n) && (n <=? 13) || (28 <=? n) && (n <=? 32))%N.

Definition is_upper (a : ascii) : bool :=
  let n := code a in ((65 <=? n) && (n <=? 90))%N.
Definition is_lower (a : ascii) : bool :=
  let n := code a in ((97 <=? n) && (n <=? 122))%N.
Definition is_cased (a : ascii) : bool := is_upper a || is_lower a.
Definition is_digit (a : ascii) : bool :=
  let n := code a in ((48 <=? n) && (n <=? 57))%N.

Definition to_lower (a : ascii) : ascii :=
  if is_upper a then ascii_of_N (code a + 32) else a.
Definition to_upper (a : ascii) : ascii :=
  if is_lower a then ascii_of_N (code a - 32) else a.

(** [s.lower()] *)
Fixpoint lower (s : string) : string :=
  match s with
  | EmptyString => EmptyString
  | String a s' => String (to_lower a) (lower s')
  end.

(** [s.title()]: a cased character is upper-cased when the character before
    it is not cased, and lower-cased otherwise. *)
Fixpoint title_go (previous_is_cased : bool) (s : string) : string :=
  match s with
  | EmptyString => EmptyString
  | String a s' =>
      String (if previous_is_cased then to_lower a else to_upper a)
             (title_go (is_cased a) s')
  end.
Definition title (s : string) : string := title_go false s.

(** [s.lstrip()], [s.rstrip()], [s.strip()] *)
Fixpoint lstrip (s : string) : string :=
  match s with
  | EmptyString => EmptyString
  | String a s' => if is_space a then lstrip s' else s
  end.
Fixpoint rstrip (s : string) : string :=
  match s with
  | EmptyString => EmptyString
  | String a s' =>
      match rstrip s' with
      | EmptyString => if is_space a then EmptyString else String a EmptyString
      | r => String a r
      end
  end.
Definition strip (s : string) : string := rstrip (lstrip s).

(** Every character of [s] is whitespace ([s.isspace()] or [s] empty). *)
Fixpoint all_space (s : string) : bool :=
  match s with
  | EmptyString => true
  | String a s' => is_space a && all_space s'
  end.

(** [sep.join(l)] *)
Fixpoint join (sep : string) (l : list string) : string :=
  match l with
  | [] => EmptyString
  | [x] => x
  | x :: rest => x +:+ sep +:+ join sep rest
  end.

(** [s.startswith(p)] *)
Fixpoint startswith (p s : string) : bool :=
  match p, s with
  | EmptyString, _ => true
  | String a p', String b s' => if decide (a = b) then startswith p' s' else false
  | String _ _, EmptyString => false
  end.

(** [s[:n]] *)
Fixpoint take (n : nat) (s : string) : string :=
  match n, s with
  | O, _ => EmptyString
  | S n', String a s' => String a (take n' s')
  | S _, EmptyString => EmptyString
  end.

(** [s.split(sep)] for a one-character separator: the pieces between the
    occurrences, empty pieces included; never the empty list. *)
Fixpoint split (sep : ascii) (s : string) : list string :=
  match s with
  | EmptyString => [EmptyString]
  | String a s' =>
      if decide (a = sep) then EmptyString :: split sep s'
      else match split sep s' with
           | [] => [String a EmptyString]
           | w :: ws => String a w :: ws
           end
  end.

(** [bool(s)] *)
Definition nonempty (s : string) : bool :=
  match s with EmptyString => false | String _ _ => true end.

(** [x in s] for strings: [x] occurs in [s]. *)
Definition occurs_in (x s : string) : Prop :=
  exists pre post, s = pre +:+ x +:+ post.

End PyStr.

(** ** Python values, exceptions and results *)

Module Py.

(** The values a JSON tool call can put in the argument mapping, seen
    through the observations the handler makes on them: whether the value
    is a [str], its class name, its truth value, and its [str()] rendering.
    [PObj] stands for every value that is neither a string nor [None]
    (number, boolean, array, object). *)
Inductive value : Type :=
| PStr (s : string)
| PNone
| PObj (class_name : string) (truth : bool) (text : string).

(** [bool(v)] *)
Definition truthy (v : value) : bool :=
  match v with
  | PStr s => PyStr.nonempty s
  | PNone => false
  | PObj _ b _ => b
  end.

(** [str(v)], the rendering an f-string uses *)
Definition str (v : value) : string :=
  match v with
  | PStr s => s
  | PNone => "None"
  | PObj _ _ t => t
  end.

(** [type(v).__name__], as it appears in an [AttributeError] message *)
Definition type_name (v : value) : string :=
  match v with
  | PStr _ => "str"
  | PNone => "NoneType"
  | PObj c _ _ => c
  end.

Inductive exn_class : Type :=
| AttributeError | TypeError | ValueError
| FileExistsError | FileNotFoundError | NotADirectoryError
| IsADirectoryError | PermissionError | OtherException.

(** An exception object: its class (every class here derives from
    [Exception]) and [str(e)]. *)
Record exn : Type := Exn { exn_cls : exn_class; exn_str : string }.

Inductive result (A : Type) : Type :=
| Ok (a : A)
| Raise (e : exn).
Global Arguments Ok {A} a.
Global Arguments Raise {A} e.

(** [all(l)] *)
Definition all (l : list value) : bool := forallb truthy l.

(** [AttributeError] for a method a value does not have *)
Definition attribute_error (v : value) (method : string) : exn :=
  Exn AttributeError
      ("'" +:+ type_name v +:+ "' object has no attribute '" +:+ method +:+ "'").

(** [v.strip()]: defined on strings, [AttributeError] on anything else. *)
Definition strip (v : value) : result string :=
  match v with
  | PStr s => Ok (PyStr.strip s)
  | _ => Raise (attribute_error v "strip")
  end.

(** [v.title()] *)
Definition title (v : value) : result string :=
  match v with
  | PStr s => Ok (PyStr.title s)
  | _ => Raise (attribute_error v "title")
  end.

(** The argument mapping [dict[str, Any]] and [d.get(key, default)]. *)
Definition get (d : gmap string value) (key : string) (default : value) : value :=
  match d !! key with
  | Some v => v
  | None => default
  end.

End Py.

(** ** The file system *)

Module FS.

(** A path is the list of its components, innermost first:
    [/w/entries/flora] is [["flora"; "entries"; "w"]]. *)
Abbreviation path := (list string).

Inductive node : Type :=
| Dir
| File (content : string).

Abbreviation state := (gmap (list string) node).

(** What the operating system allows on a path: reading a file, and
    writing (creating an entry in a directory, overwriting a file). *)
Record perms : Type := Perms { readable : path -> bool; writable : path -> bool }.

(** [p.parent] *)
Definition parent (p : path) : path := tail p.

(** [str(p)] *)
Definition path_str (p : path) : string := "/" +:+ PyStr.join "/" (rev p).

(** The components a string contributes to a path: split at [/], empty
    and [.] components dropped. *)
Definition segments (s : string) : path :=
  rev (filter (fun x => x <> EmptyString /\ x <> ".") (PyStr.split "/"%char s)).

(** [p / s]: an absolute [s] replaces [p].  (Two leading slashes, which
    POSIX lets a system read in its own way and [pathlib] keeps, are read
    as one.) *)
Definition div (p : path) (s : string) : path :=
  if PyStr.startswith "/" s then segments s else segments s ++ p.

(** A string that is one path component: not empty, not [.], no [/]. *)
Fixpoint no_slash (s : string) : bool :=
  match s with
  | EmptyString => true
  | String a s' => negb (bool_decide (a = "/"%char)) && no_slash s'
  end.
Definition plain (s : string) : bool :=
  no_slash s && PyStr.nonempty s && negb (bool_decide (s = ".")).

(** [p.exists()], [p.is_dir()] *)
Definition exists_ (fs : state) (p : path) : bool :=
  match fs !! p with Some _ => true | None => false end.
Definition is_dir (fs : state) (p : path) : bool :=
  match fs !! p with Some Dir => true | _ => false end.

Definition os_error (c : Py.exn_class) (errno what : string) (p : path) : Py.exn :=
  Py.Exn c ("[Errno " +:+ errno +:+ "] " +:+ what +:+ ": '" +:+ path_str p +:+ "'").

Fixpoint strip_prefix (b c : path) : option path :=
  match b, c with
  | [], _ => Some c
  | x :: b', y :: c' => if decide (x = y) then strip_prefix b' c' else None
  | _ :: _, [] => None
  end.

(** [str(child.relative_to(base))]; the text of the [ValueError] is the
    one of Python 3.12, earlier versions add a clause to it. *)
Definition relative_to (child base : path) : Py.result string :=
  match strip_prefix (rev base) (rev child) with
  | Some [] => Py.Ok "."
  | Some rest => Py.Ok (PyStr.join "/" rest)
  | None =>
      Py.Raise (Py.Exn Py.ValueError
        ("'" +:+ path_str child +:+ "' is not in the subpath of '" +:+ path_str base +:+ "'"))
  end.

(** A component on the way to [p] is a regular file: the system answers
    every operation on [p] with [ENOTDIR]. *)
Fixpoint through_file (fs : state) (p : path) : bool :=
  match p with
  | [] => false
  | _ :: q =>
      match fs !! q with
      | Some (File _) => true
      | _ => through_file fs q
      end
  end.

Section Operations.
Variable pm : perms.

(** [os.mkdir(p)] *)
Definition os_mkdir (p : path) (fs : state) : Py.result state :=
  if through_file fs p
  then Py.Raise (os_error Py.NotADirectoryError "20" "Not a directory" p)
  else
    match fs !! p with
    | Some _ => Py.Raise (os_error Py.FileExistsError "17" "File exists" p)
    | None =>
        match fs !! parent p with
        | None => Py.Raise (os_error Py.FileNotFoundError "2" "No such file or directory" p)
        | Some (File _) => Py.Raise (os_error Py.NotADirectoryError "20" "Not a directory" p)
        | Some Dir =>
            if writable pm (parent p) then Py.Ok (<[p := Dir]> fs)
            else Py.Raise (os_error Py.PermissionError "13" "Permission denied" p)
        end
    end.

Definition is_file_not_found (e : Py.exn) : bool :=
  match Py.exn_cls e with Py.FileNotFoundError => true | _ => false end.

(** [p.mkdir(parents=False, exist_ok=True)] *)
Definition mkdir_exist_ok (p : path) (fs : state) : Py.result state :=
  match os_mkdir p fs with
  | Py.Ok fs' => Py.Ok fs'
  | Py.Raise e =>
      if is_file_not_found e then Py.Raise e
      else if is_dir fs p then Py.Ok fs else Py.Raise e
  end.

(** [p.mkdir(parents=True, exist_ok=True)], as [pathlib] does it: try
    [os.mkdir]; on [FileNotFoundError] make the parent first, then the
    directory itself; on another [OSError] accept an existing
    directory.  It is not one system call: when a later [os.mkdir] fails,
    the parents made before it stay, so the result comes with the file
    system reached. *)
Fixpoint mkdir_parents (p : path) (fs : state) : Py.result unit * state :=
  match os_mkdir p fs with
  | Py.Ok fs' => (Py.Ok tt, fs')
  | Py.Raise e =>
      if is_file_not_found e then
        match p with
        | [] => (Py.Raise e, fs)
        | _ :: q =>
            match mkdir_parents q fs with
            | (Py.Ok _, fs1) =>
                match mkdir_exist_ok p fs1 with
                | Py.Ok fs2 => (Py.Ok tt, fs2)
                | Py.Raise e' => (Py.Raise e', fs1)
                end
            | (Py.Raise e', fs1) => (Py.Raise e', fs1)
            end
        end
      else if is_dir fs p then (Py.Ok tt, fs) else (Py.Raise e, fs)
  end.

(** [with open(p, "w") as f: f.write(content)] *)
Definition write_text (p : path) (content : string) (fs : state) : Py.result state :=
  if through_file fs p
  then Py.Raise (os_error Py.NotADirectoryError "20" "Not a directory" p)
  else
    match fs !! p with
    | Some Dir => Py.Raise (os_error Py.IsADirectoryError "21" "Is a directory" p)
    | Some (File _) =>
        if writable pm p then Py.Ok (<[p := File content]> fs)
        else Py.Raise (os_error Py.PermissionError "13" "Permission denied" p)
    | None =>
        match fs !! parent p with
        | None => Py.Raise (os_error Py.FileNotFoundError "2" "No such file or directory" p)
        | Some (File _) => Py.Raise (os_error Py.NotADirectoryError "20" "Not a directory" p)
        | Some Dir =>
            if writable pm (parent p) then Py.Ok (<[p := File content]> fs)
            else Py.Raise (os_error Py.PermissionError "13" "Permission denied" p)
        end
    end.

(** [with open(p, "r") as f: f.read()] *)
Definition read_text (p : path) (fs : state) : Py.result string :=
  if through_file fs p
  then Py.Raise (os_error Py.NotADirectoryError "20" "Not a directory" p)
  else
    match fs !! p with
    | Some (File c) =>
        if readable pm p then Py.Ok c
        else Py.Raise (os_error Py.PermissionError "13" "Permission denied" p)
    | Some Dir => Py.Raise (os_error Py.IsADirectoryError "21" "Is a directory" p)
    | None => Py.Raise (os_error Py.FileNotFoundError "2" "No such file or directory" p)
    end.

End Operations.

End FS.

(** ** Computations: a file-system state and a possible exception

    A raised exception keeps the state reached so far: Python undoes
    nothing. *)

Module Comp.

Definition M (A : Type) : Type := FS.state -> Py.result A * FS.state.

Definition ret {A} (a : A) : M A := fun fs => (Py.Ok a, fs).
Definition raise {A} (e : Py.exn) : M A := fun fs => (Py.Raise e, fs).
Definition bind {A B} (c : M A) (k : A -> M B) : M B :=
  fun fs =>
    match c fs with
    | (Py.Ok a, fs') => k a fs'
    | (Py.Raise e, fs') => (Py.Raise e, fs')
    end.

(** [try: c  except Exception as e: h e] *)
Definition try_except {A} (c : M A) (h : Py.exn -> M A) : M A :=
  fun fs =>
    match c fs with
    | (Py.Ok a, fs') => (Py.Ok a, fs')
    | (Py.Raise e, fs') => h e fs'
    end.

(** A pure step that may raise. *)
Definition lift {A} (r : Py.result A) : M A := fun fs => (r, fs).
(** A step that reads the file system. *)
Definition reads {A} (f : FS.state -> A) : M A := fun fs => (Py.Ok (f fs), fs).
(** A method call on [v] that only a [str] has: the computation goes on
    with the string, or raises [AttributeError]. *)
Definition as_str {A} (v : Py.value) (method : string) (k : string -> M A) : M A :=
  match v with
  | Py.PStr s => k s
  | _ => raise (Py.attribute_error v method)
  end.
(** One system call that changes the file system, or fails and has
    changed nothing ([open] for writing, [os.mkdir]).  A step made of
    several calls, as [FS.mkdir_parents], is a computation of its own and
    keeps what it did before it failed. *)
Definition update (f : FS.state -> Py.result FS.state) : M unit :=
  fun fs =>
    match f fs with
    | Py.Ok fs' => (Py.Ok tt, fs')
    | Py.Raise e => (Py.Raise e, fs)
    end.

End Comp.

Notation "'let*' x ':=' c 'in' k" := (Comp.bind c (fun x => k))
  (at level 10, x name, c at level 100, k at level 200).

(** ** [vibe_worldbuilding/config.py] *)

Module Config.

Definition MARKDOWN_EXTENSION : string := ".md".
Definition IMAGE_EXTENSION : string := ".png".
Definition TAXONOMY_OVERVIEW_SUFFIX : string := "-overview".
Definition MAX_DESCRIPTION_LINES : nat := 3.

End Config.

(** ** [mcp.types.TextContent] *)

Record TextContent : Type := mkTextContent { type_ : string; text : string }.

Definition text_content (t : string) : list TextContent :=
  [ {| type_ := "text"; text := t |} ].

(** A frontmatter mapping: a Python [dict] from [str] to [str], which keeps
    its keys in insertion order. *)
Abbreviation frontmatter := (list (string * string)).

(** [d[k] = v] on such a mapping *)
Fixpoint dict_set (d : frontmatter) (k v : string) : frontmatter :=
  match d with
  | [] => [(k, v)]
  | (k', v') :: d' => if decide (k' = k) then (k, v) :: d' else (k', v') :: dict_set d' k v
  end.

(** ** The collaborators of [creation.py]

    [creation.py] imports these functions from [utils/content_parsing.py],
    [utils/path_helpers.py], [entries/utilities.py] and
    [entries/stub_generation.py].  The handler is embedded over any
    implementation of them with the shape the specification gives them:
    the name and path resolvers never fail on a string, the context
    assembler and the stub analysis only read the file system and return
    text, the content formatter is a function of its arguments.  What the
    resolvers do with a value that is not a string is left open (the [_dyn]
    fields). *)

Record Helpers : Type := mkHelpers {
  resolve_world_path_str : string -> FS.path;
  resolve_world_path_dyn : Py.value -> Py.result FS.path;
  clean_name_str : string -> string;
  clean_name_dyn : Py.value -> Py.result string;
  extract_taxonomy_context : FS.state -> FS.path -> string -> string;
  get_existing_taxonomies : FS.state -> FS.path -> list string;
  get_existing_entries_with_descriptions : FS.state -> FS.path -> list (string * string);
  create_world_context_prompt :
    list string -> list (string * string) -> string -> string -> Py.value -> string;
  generate_stub_analysis : FS.state -> FS.path -> Py.value -> Py.value -> string -> string;
  extract_description_from_content : string -> string;
  add_frontmatter_to_content : string -> frontmatter -> string
}.

Definition resolve_world_path (H : Helpers) (v : Py.value) : Py.result FS.path :=
  match v with
  | Py.PStr s => Py.Ok (resolve_world_path_str H s)
  | _ => resolve_world_path_dyn H v
  end.

Definition clean_name (H : Helpers) (v : Py.value) : Py.result string :=
  match v with
  | Py.PStr s => Py.Ok (clean_name_str H s)
  | _ => clean_name_dyn H v
  end.

(** ** [vibe_worldbuilding/utils/content_parsing.py], from the specification *)

Module ContentParsing.

(** The definitions up to [split_frontmatter] are the parts of the two
    modelled functions [add_frontmatter_to_content] and
    [extract_frontmatter]: a header block is a fence line, one line
    [key: "value"] per field, and a fence line (sections 6 and 8 of the
    specification); keys and values are escaped so that a field is one
    line. *)

(** The fence line of a header block. *)
Definition fence : string := "---".

(** One character of a key or value as it is written in a header line: the
    backslash, the line break and the delimiter [sp] are escaped. *)
Definition escape_char (sp a : ascii) : string :=
  if decide (a = "092"%char) then String "092"%char (String "092"%char EmptyString)
  else if decide (a = "010"%char) then String "092"%char (String "n"%char EmptyString)
  else if decide (a = sp) then String "092"%char (String sp EmptyString)
  else String a EmptyString.

Fixpoint escape (sp : ascii) (s : string) : string :=
  match s with
  | EmptyString => EmptyString
  | String a s' => escape_char sp a +:+ escape sp s'
  end.

(** Reads an escaped text up to the first delimiter [sp] that is not
    escaped: the text and what follows the delimiter. *)
Fixpoint unescape_until (sp : ascii) (s : string) : option (string * string) :=
  match s with
  | EmptyString => None
  | String a s' =>
      if decide (a = sp) then Some (EmptyString, s')
      else if decide (a = "092"%char) then
        match s' with
        | EmptyString => None
        | String b s'' =>
            let decoded :=
              if decide (b = "n"%char) then Some "010"%char
              else if decide (b = "092"%char) then Some b
              else if decide (b = sp) then Some b
              else None in
            match decoded, unescape_until sp s'' with
            | Some c, Some (t, rest) => Some (String c t, rest)
            | _, _ => None
            end
        end
      else
        match unescape_until sp s' with
        | Some (t, rest) => Some (String a t, rest)
        | None => None
        end
  end.

(** A header line: [key: ] followed by the value between double quotes. *)
Definition render_field (kv : string * string) : string :=
  escape ":"%char kv.1 +:+ ": " +:+ PyStr.dquote
    +:+ escape "034"%char kv.2 +:+ PyStr.dquote.

Definition parse_field (line : string) : option (string * string) :=
  match unescape_until ":"%char line with
  | Some (k, String " "%char (String "034"%char rest)) =>
      match unescape_until "034"%char rest with
      | Some (v, EmptyString) => Some (k, v)
      | _ => None
      end
  | _ => None
  end.

Fixpoint parse_fields (lines : list string) : option (list (string * string)) :=
  match lines with
  | [] => Some []
  | l :: ls =>
      match parse_field l, parse_fields ls with
      | Some kv, Some kvs => Some (kv :: kvs)
      | _, _ => None
      end
  end.

(** The lines before the first fence line, and the lines after it. *)
Fixpoint span_fence (lines : list string) : option (list string * list string) :=
  match lines with
  | [] => None
  | l :: ls =>
      if decide (l = fence) then Some ([], ls)
      else match span_fence ls with
           | Some (before, after) => Some (l :: before, after)
           | None => None
           end
  end.

(** The mapping a sequence of fields denotes: a later field with the same
    key replaces the earlier value. *)
Definition dict_of_fields (kvs : list (string * string)) : frontmatter :=
  fold_left (fun d kv => dict_set d kv.1 kv.2) kvs [].

(** The header block of [fields]: a fence line, one line per field, a fence
    line, then a blank line. *)
Definition render_frontmatter (fields : frontmatter) : string :=
  fence +:+ PyStr.nl
    +:+ fold_right (fun kv acc => render_field kv +:+ PyStr.nl +:+ acc) EmptyString fields
    +:+ fence +:+ PyStr.nl +:+ PyStr.nl.

(** The header block at the start of a document, if there is a well-formed
    one, with the body after it. *)
Definition split_frontmatter (content : string) : option (frontmatter * string) :=
  match PyStr.split "010"%char content with
  | first :: rest =>
      if decide (first = fence) then
        match span_fence rest with
        | Some (header, after) =>
            match parse_fields header with
            | Some kvs =>
                let body :=
                  match after with
                  | EmptyString :: body => body
                  | _ => after
                  end in
                Some (dict_of_fields kvs, PyStr.join PyStr.nl body)
            | None => None
            end
        | None => None
        end
      else None
  | [] => None
  end.

(** The content starts with a well-formed header block. *)
Definition has_frontmatter (content : string) : bool :=
  match split_frontmatter content with
  | Some _ => true
  | None => false
  end.

(** No line break in the string. *)
Fixpoint one_line (s : string) : bool :=
  match s with
  | EmptyString => true
  | String a s' => negb (bool_decide (a = "010"%char)) && one_line s'
  end.

(** Modelled from the spec: [extract_frontmatter] of
    [utils/content_parsing.py], which is not among the sources.  Section 4.2:
    it parses an existing header block into a mapping plus the remaining
    body, and returns an empty mapping if no header block is present; it
    never raises on malformed input. *)
Definition extract_frontmatter (content : string) : frontmatter * string :=
  match split_frontmatter content with
  | Some (fields, body) => (fields, body)
  | None => ([], content)
  end.

(** Modelled from the spec: [add_frontmatter_to_content] of
    [utils/content_parsing.py], which is not among the sources.  Section 4.2:
    it serializes [fields] as a structured header block and prepends it to
    [content]; a header block already in [content] is detected and replaced,
    not stacked under the new one.  Section 6: the header is followed by a
    blank line. *)
Definition add_frontmatter_to_content (content : string) (fields : frontmatter) : string :=
  render_frontmatter fields +:+ (extract_frontmatter content).2.

Definition is_blank (s : string) : bool := negb (PyStr.nonempty (PyStr.strip s)).

Fixpoint drop_blank (lines : list string) : list string :=
  match lines with
  | [] => []
  | l :: ls => if is_blank l then drop_blank ls else lines
  end.

Fixpoint take_block (lines : list string) : list string :=
  match lines with
  | [] => []
  | l :: ls => if is_blank l then [] else PyStr.strip l :: take_block ls
  end.

(** Modelled from the spec: [extract_description_from_content] of
    [utils/content_parsing.py], which is not among the sources.  Section 4.2:
    it returns the first non-empty block of prose, up to a budget of
    [MAX_DESCRIPTION_LINES] lines, and the empty string if the content is
    empty. *)
Definition extract_description_from_content (content : string) : string :=
  PyStr.join " "
    (firstn Config.MAX_DESCRIPTION_LINES
       (take_block (drop_blank (PyStr.split "010"%char content)))).

End ContentParsing.

(** ** [entries/utilities.py] and [utils/path_helpers.py], from the specification *)

Module Utilities.

Definition slug_char (a : ascii) : ascii :=
  if PyStr.is_lower a || PyStr.is_digit a
     || bool_decide (a = "-"%char) || bool_decide (a = "_"%char)
  then a else "-"%char.

Fixpoint map_chars (f : ascii -> ascii) (s : string) : string :=
  match s with
  | EmptyString => EmptyString
  | String a s' => String (f a) (map_chars f s')
  end.

(** Modelled from the spec: [clean_name] of [entries/utilities.py], which is
    not among the sources.  Section 4.1: the name is lower-cased, leading
    and trailing whitespace is trimmed, internal whitespace and disallowed
    characters are replaced with hyphens. *)
Definition clean_name (name : string) : string :=
  map_chars slug_char (PyStr.lower (PyStr.strip name)).

(** Modelled from the spec: [resolve_world_path] of [utils/path_helpers.py],
    which is not among the sources.  Section 4.1: a relative or absolute
    world directory is resolved against the base directory. *)
Definition resolve_world_path (base : FS.path) (world_directory : string) : FS.path :=
  FS.div base world_directory.

(** [name] without the ending [suffix], if it ends with it. *)
Fixpoint remove_suffix (suffix name : string) : option string :=
  if decide (name = suffix) then Some EmptyString
  else match name with
       | EmptyString => None
       | String a name' => String a <$> remove_suffix suffix name'
       end.

Definition overview_file_suffix : string :=
  Config.TAXONOMY_OVERVIEW_SUFFIX +:+ Config.MARKDOWN_EXTENSION.

(** The taxonomy a directory entry stands for, when it is an overview file
    of the world at [world_path]. *)
Definition taxonomy_of_entry (world_path : FS.path) (entry : FS.path * FS.node)
  : option string :=
  match entry.1 with
  | name :: dir =>
      if decide (dir = FS.div world_path "taxonomies")
      then remove_suffix overview_file_suffix name
      else None
  | [] => None
  end.

(** Modelled from the spec: [get_existing_taxonomies] of
    [entries/utilities.py], which is not among the sources.  Section 4.3: the
    existing taxonomies are derived from the file names under [taxonomies/]
    that match the overview-suffix convention, and reported by their display
    names; [display] is the rendering of a taxonomy name, which the
    specification leaves open. *)
Definition get_existing_taxonomies (display : string -> string)
    (fs : FS.state) (world_path : FS.path) : list string :=
  display <$> omap (taxonomy_of_entry world_path) (map_to_list fs).

(** Modelled from the spec: [extract_taxonomy_context] of
    [entries/utilities.py], which is not among the sources.  Section 4.3: a
    bounded prefix (500 characters) of the taxonomy overview file, if
    present; an unreadable or missing file gives the empty string. *)
Definition extract_taxonomy_context (pm : FS.perms)
    (fs : FS.state) (world_path : FS.path) (clean_taxonomy : string) : string :=
  let file :=
    FS.div (FS.div world_path "taxonomies") (clean_taxonomy +:+ overview_file_suffix) in
  match FS.read_text pm file fs with
  | Py.Ok content => PyStr.take 500 content
  | Py.Raise _ => EmptyString
  end.

(** The entry a directory entry stands for, when it is a file under
    [entries/<taxonomy>/]: its name and its frontmatter description. *)
Definition entry_of_file (world_path : FS.path) (entry : FS.path * FS.node)
  : option (string * string) :=
  match entry with
  | (name :: _ :: dir, FS.File content) =>
      if decide (dir = FS.div world_path "entries") then
        let description :=
          match list_find (fun kv => kv.1 = "description")
                          (ContentParsing.extract_frontmatter content).1 with
          | Some (_, (_, d)) => d
          | None => EmptyString
          end in
        Some (name, description)
      else None
  | _ => None
  end.

(** Modelled from the spec: [get_existing_entries_with_descriptions] of
    [entries/utilities.py], which is not among the sources.  Section 4.3: the
    files under [entries/], each paired with its frontmatter description if
    one can be extracted. *)
Definition get_existing_entries_with_descriptions
    (fs : FS.state) (world_path : FS.path) : list (string * string) :=
  omap (entry_of_file world_path) (map_to_list fs).

(** Modelled from the spec: [create_world_context_prompt] of
    [entries/utilities.py], which is not among the sources.  Section 4.3: one
    text block presenting the taxonomies, the existing entries with their
    descriptions, the taxonomy context excerpt and the world overview
    excerpt. *)
Definition create_world_context_prompt
    (existing_taxonomies : list string) (existing_entries : list (string * string))
    (taxonomy_context world_overview : string) (taxonomy : Py.value) : string :=
  "Taxonomies: " +:+ PyStr.join ", " existing_taxonomies +:+ PyStr.nl
    +:+ "Entries: "
    +:+ PyStr.join "; " ((fun e => e.1 +:+ " - " +:+ e.2) <$> existing_entries) +:+ PyStr.nl
    +:+ "Taxonomy " +:+ Py.str taxonomy +:+ ": " +:+ taxonomy_context +:+ PyStr.nl
    +:+ "World: " +:+ world_overview.

(** The collaborators as the specification describes them.  The stub
    analysis is an opaque function returning text (section 2), and what the
    resolvers do with a value that is not a string is not specified: both
    stay parameters. *)
Definition spec_helpers (pm : FS.perms) (base : FS.path) (display : string -> string)
    (stub_analysis : FS.state -> FS.path -> Py.value -> Py.value -> string -> string)
    (resolve_dyn : Py.value -> Py.result FS.path)
    (clean_dyn : Py.value -> Py.result string) : Helpers :=
  mkHelpers
    (resolve_world_path base) resolve_dyn
    clean_name clean_dyn
    (extract_taxonomy_context pm)
    (get_existing_taxonomies display)
    get_existing_entries_with_descriptions
    create_world_context_prompt
    stub_analysis
    ContentParsing.extract_description_from_content
    ContentParsing.add_frontmatter_to_content.

End Utilities.

(** ** [vibe_worldbuilding/entries/creation.py] *)

Module Creation.
Import Comp.

Section Handler.
Variable pm : FS.perms.
Variable H : Helpers.

(** [_get_world_overview(world_path)] *)
Definition _get_world_overview (world_path : FS.path) (fs : FS.state) : string :=
  let overview_path := FS.div (FS.div world_path "overview") "world-overview.md" in
  if FS.exists_ fs overview_path then
    match FS.read_text pm overview_path fs with
    | Py.Ok content =>
        PyStr.take 500 content
          +:+ (if decide (500 < String.length content) then "..." else EmptyString)
    | Py.Raise _ => EmptyString
    end
  else EmptyString.

(** The overview file whose existence makes a taxonomy exist (line 108). *)
Definition taxonomy_overview_path (world_path : FS.path) (clean_taxonomy : string) : FS.path :=
  FS.div (FS.div world_path "taxonomies")
         (clean_taxonomy +:+ Config.TAXONOMY_OVERVIEW_SUFFIX +:+ ".md").

(** The path [_create_entry_file] writes to. *)
Definition entry_dir (world_path : FS.path) (clean_taxonomy : string) : FS.path :=
  FS.div (FS.div world_path "entries") clean_taxonomy.
Definition entry_file_path (world_path : FS.path) (clean_taxonomy clean_entry : string)
  : FS.path :=
  FS.div (entry_dir world_path clean_taxonomy) (clean_entry +:+ Config.MARKDOWN_EXTENSION).

(** The frontmatter [_create_entry_file] builds. *)
Definition entry_frontmatter (entry_content taxonomy_context : string) : frontmatter :=
  let description := extract_description_from_content H entry_content in
  let frontmatter := [("description", description); ("article_type", "full")] in
  if PyStr.nonempty taxonomy_context
  then dict_set frontmatter "taxonomyContext" taxonomy_context
  else frontmatter.

(** The footer [_create_entry_file] appends, for a title-cased taxonomy. *)
Definition entry_footer (titled : string) : string :=
  PyStr.nl +:+ PyStr.nl +:+ "---" +:+ PyStr.nl
    +:+ "*Entry in " +:+ titled +:+ " taxonomy*" +:+ PyStr.nl.

(** [_create_entry_file(world_path, clean_taxonomy, clean_entry, entry_name,
    entry_content, taxonomy, taxonomy_context)] *)
Definition _create_entry_file
    (world_path : FS.path) (clean_taxonomy clean_entry : string)
    (entry_name : Py.value) (entry_content : string) (taxonomy : Py.value)
    (taxonomy_context : string) : M FS.path :=
  let entry_path := entry_dir world_path clean_taxonomy in
  let* _ := FS.mkdir_parents pm entry_path in
  let entry_file := entry_file_path world_path clean_taxonomy clean_entry in
  let frontmatter := entry_frontmatter entry_content taxonomy_context in
  let final_content := add_frontmatter_to_content H entry_content frontmatter in
  let* titled := lift (Py.title taxonomy) in
  let final_content := final_content +:+ entry_footer titled in
  let* _ := update (FS.write_text pm entry_file final_content) in
  ret entry_file.

(** [_generate_optimized_entry_image]: the body is disabled, the function
    returns the empty string at once. *)
Definition _generate_optimized_entry_image
    (world_path : FS.path) (clean_taxonomy clean_entry : string)
    (entry_name : Py.value) (entry_content : string) : M string :=
  ret EmptyString.

Definition missing_world_text (world_path : FS.path) : string :=
  "Error: World directory " +:+ FS.path_str world_path +:+ " does not exist".

Definition missing_taxonomy_text (taxonomy : Py.value) (existing_taxonomies : list string)
  : string :=
  let taxonomy_list :=
    match existing_taxonomies with
    | [] => "None"
    | _ => PyStr.join ", " existing_taxonomies
    end in
  "Error: Taxonomy '" +:+ Py.str taxonomy +:+ "' does not exist. Available taxonomies: "
    +:+ taxonomy_list +:+ PyStr.nl +:+ PyStr.nl
    +:+ "Use the create_taxonomy tool to create this taxonomy first.".

Definition created_text (entry_name : Py.value) (world_context relative_path : string)
    (taxonomy_context image_info stub_analysis_info : string) : string :=
  let context_info :=
    if PyStr.nonempty taxonomy_context
    then PyStr.nl +:+ PyStr.nl +:+ "Taxonomy context included: "
           +:+ PyStr.take 100 taxonomy_context +:+ "..."
    else PyStr.nl +:+ PyStr.nl +:+ "No taxonomy overview found for reference." in
  "# World Context Used for '" +:+ Py.str entry_name +:+ "'" +:+ PyStr.nl +:+ PyStr.nl
    +:+ world_context +:+ PyStr.nl +:+ PyStr.nl +:+ "---" +:+ PyStr.nl +:+ PyStr.nl
    +:+ "## Entry Created Successfully!" +:+ PyStr.nl +:+ PyStr.nl
    +:+ "Saved to: " +:+ relative_path +:+ context_info +:+ PyStr.nl +:+ PyStr.nl
    +:+ "The entry includes:" +:+ PyStr.nl
    +:+ "1. YAML frontmatter with description" +:+ PyStr.nl
    +:+ "2. Your detailed content" +:+ PyStr.nl
    +:+ "3. Taxonomy classification footer" +:+ image_info +:+ stub_analysis_info
    +:+ PyStr.nl +:+ PyStr.nl
    +:+ "**Note**: Review the content above - it should include crosslinks to existing entries based on the context provided.".

Definition context_only_text (entry_name taxonomy : Py.value) (world_context : string)
  : string :=
  "# World Context for Creating '" +:+ Py.str entry_name +:+ "' in " +:+ Py.str taxonomy
    +:+ PyStr.nl +:+ PyStr.nl +:+ world_context +:+ PyStr.nl +:+ PyStr.nl
    +:+ "---" +:+ PyStr.nl +:+ PyStr.nl
    +:+ "**Next Step**: Generate entry content that references existing entries using the linking format provided above, then call this tool again with your `entry_content`.".

Definition failure_text (e : Py.exn) : string :=
  "Error creating world entry: " +:+ Py.exn_str e.

(** The [try] block of [create_world_entry] (lines 84-218). *)
Definition create_world_entry_try
    (world_directory taxonomy entry_name entry_content : Py.value)
  : M (list TextContent) :=
  let* world_path := lift (resolve_world_path H world_directory) in
  let* world_exists := reads (fun fs => FS.exists_ fs world_path) in
  if negb world_exists then ret (text_content (missing_world_text world_path))
  else
    let* clean_taxonomy := lift (clean_name H taxonomy) in
    let* clean_entry := lift (clean_name H entry_name) in
    let taxonomy_overview_file := taxonomy_overview_path world_path clean_taxonomy in
    let* overview_exists := reads (fun fs => FS.exists_ fs taxonomy_overview_file) in
    if negb overview_exists then
      let* existing_taxonomies := reads (fun fs => get_existing_taxonomies H fs world_path) in
      ret (text_content (missing_taxonomy_text taxonomy existing_taxonomies))
    else
      let* taxonomy_context :=
        reads (fun fs => extract_taxonomy_context H fs world_path clean_taxonomy) in
      let* existing_taxonomies := reads (fun fs => get_existing_taxonomies H fs world_path) in
      let* existing_entries :=
        reads (fun fs => get_existing_entries_with_descriptions H fs world_path) in
      let* world_overview := reads (_get_world_overview world_path) in
      let world_context :=
        create_world_context_prompt H existing_taxonomies existing_entries
          taxonomy_context world_overview taxonomy in
      (* line 157: [if entry_content.strip():] *)
      as_str entry_content "strip" (fun content =>
      if PyStr.nonempty (PyStr.strip content) then
        let* entry_file :=
          _create_entry_file world_path clean_taxonomy clean_entry entry_name
            content taxonomy taxonomy_context in
        let* image_info :=
          _generate_optimized_entry_image world_path clean_taxonomy clean_entry
            entry_name content in
        let* stub_analysis_info :=
          reads (fun fs => generate_stub_analysis H fs world_path entry_name taxonomy
                             content) in
        let* relative_path := lift (FS.relative_to entry_file world_path) in
        ret (text_content
               (created_text entry_name world_context relative_path taxonomy_context
                  image_info stub_analysis_info))
      else
        ret (text_content (context_only_text entry_name taxonomy world_context))).

(** [create_world_entry(arguments)].  [not arguments] holds for [None] and
    for the empty mapping. *)
Definition create_world_entry (arguments : option (gmap string Py.value))
  : M (list TextContent) :=
  match arguments with
  | None => ret (text_content "Error: No arguments provided")
  | Some d =>
      if bool_decide (d = ∅) then ret (text_content "Error: No arguments provided")
      else
        let world_directory := Py.get d "world_directory" (Py.PStr EmptyString) in
        let taxonomy := Py.get d "taxonomy" (Py.PStr EmptyString) in
        let entry_name := Py.get d "entry_name" (Py.PStr EmptyString) in
        let entry_content := Py.get d "entry_content" (Py.PStr EmptyString) in
        (* line 73: the debug print evaluates [bool(entry_content.strip())],
           before the checks and outside the [try] *)
        let* has_content := lift (Py.strip entry_content) in
        if negb (Py.all [world_directory; taxonomy; entry_name]) then
          ret (text_content "Error: world_directory, taxonomy, and entry_name are required")
        else
          try_except
            (create_world_entry_try world_directory taxonomy entry_name entry_content)
            (fun e => ret (text_content (failure_text e)))
  end.

End Handler.
End Creation.

(** ** [vibe_worldbuilding/tools/entries.py] *)

Module Tools.
Import Comp.

(** A tool handler: a coroutine from the argument mapping to a response. *)
Abbreviation handler := (option (gmap string Py.value) -> M (list TextContent)).

Section Router.
Variable pm : FS.perms.
Variable H : Helpers.
(** The handlers the router imports from [entries/stub_generation.py],
    [entries/content_processing.py] and [entries/consistency.py]. *)
Variables create_stub_entries generate_entry_descriptions add_entry_frontmatter
          analyze_world_consistency : handler.

Definition ENTRY_HANDLERS : list (string * handler) :=
  [ ("create_world_entry", Creation.create_world_entry pm H);
    ("create_stub_entries", create_stub_entries);
    ("generate_entry_descriptions", generate_entry_descriptions);
    ("add_entry_frontmatter", add_entry_frontmatter);
    ("analyze_world_consistency", analyze_world_consistency) ].

(** [ENTRY_HANDLERS[name]], [None] when [name not in ENTRY_HANDLERS] *)
Fixpoint handler_for (table : list (string * handler)) (name : string) : option handler :=
  match table with
  | [] => None
  | (k, h) :: rest => if decide (k = name) then Some h else handler_for rest name
  end.

Definition unknown_tool (name : string) : Py.exn :=
  Py.Exn Py.ValueError ("Unknown entry tool: " +:+ name).

(** [handle_entry_tool(name, arguments)] *)
Definition handle_entry_tool (name : string) (arguments : option (gmap string Py.value))
  : M (list TextContent) :=
  match handler_for ENTRY_HANDLERS name with
  | None => raise (unknown_tool name)
  | Some h => try_except (h arguments) (fun e => raise e)
  end.

End Router.
End Tools.

(** ** Vocabulary of the statements *)

Module Calls.

(** [arguments.get(key, default)] with the empty string as default *)
Definition arg (d : gmap string Py.value) (key : string) : Py.value :=
  Py.get d key (Py.PStr EmptyString).

(** The call gives [entry_content] as the string [c], or leaves it out and
    [c] is empty (section 6: [entry_content] is an optional string). *)
Definition content_is (d : gmap string Py.value) (c : string) : Prop :=
  arg d "entry_content" = Py.PStr c.

(** The three required arguments are the strings [w], [t] and [n]. *)
Definition names_are (d : gmap string Py.value) (w t n : string) : Prop :=
  arg d "world_directory" = Py.PStr w /\ arg d "taxonomy" = Py.PStr t
  /\ arg d "entry_name" = Py.PStr n.

(** One of the required arguments is missing, or present and falsy. *)
Definition missing_required (arguments : option (gmap string Py.value)) : Prop :=
  match arguments with
  | None => True
  | Some d => Py.all [arg d "world_directory"; arg d "taxonomy"; arg d "entry_name"] = false
  end.

(** [entry_content] is a string when it is given. *)
Definition content_typed (arguments : option (gmap string Py.value)) : Prop :=
  match arguments with
  | None => True
  | Some d => exists c, content_is d c
  end.

(** A response that reports a failure: one text block starting with
    [Error]. *)
Definition is_error (r : list TextContent) : bool :=
  match r with
  | [ t ] => PyStr.startswith "Error" (text t)
  | _ => false
  end.

(** The outcome of a call is a response, and not an error text. *)
Definition answered (out : Py.result (list TextContent) * FS.state) : bool :=
  match out.1 with
  | Py.Ok r => negb (is_error r)
  | Py.Raise _ => false
  end.

Section Documents.
Variable pm : FS.perms.
Variable H : Helpers.

(** What the resolvers give on the string arguments of a call. *)
Definition resolved (w : string) : FS.path := resolve_world_path_str H w.
Definition slug (name : string) : string := clean_name_str H name.

(** The context block the handler assembles in the state [fs] (lines
    128-152). *)
Definition world_context (fs : FS.state) (world_path : FS.path)
    (clean_taxonomy : string) (taxonomy : Py.value) : string :=
  create_world_context_prompt H
    (get_existing_taxonomies H fs world_path)
    (get_existing_entries_with_descriptions H fs world_path)
    (extract_taxonomy_context H fs world_path clean_taxonomy)
    (Creation._get_world_overview pm world_path fs)
    taxonomy.

(** The document [_create_entry_file] writes for [entry_content]: the
    content with its frontmatter, then the footer. *)
Definition entry_document (entry_content taxonomy_context taxonomy : string) : string :=
  add_frontmatter_to_content H entry_content
      (Creation.entry_frontmatter H entry_content taxonomy_context)
    +:+ Creation.entry_footer (PyStr.title taxonomy).

End Documents.
End Calls.

(** ** A sample world

    The world of section 8: the taxonomies [flora] and [fauna], no entries. *)

Module Example.

Definition all_perms : FS.perms := FS.Perms (fun _ => true) (fun _ => true).
Definition read_only : FS.perms := FS.Perms (fun _ => true) (fun _ => false).

Definition base : FS.path := ["base"].
Definition world : FS.path := ["world"; "base"].

Definition fs0 : FS.state :=
  list_to_map
    [ ([], FS.Dir); (base, FS.Dir); (world, FS.Dir);
      ("taxonomies" :: world, FS.Dir);
      ("flora-overview.md" :: "taxonomies" :: world, FS.File "Plants of the world.");
      ("fauna-overview.md" :: "taxonomies" :: world, FS.File EmptyString) ].

Definition helpers : Helpers :=
  Utilities.spec_helpers all_perms base PyStr.title
    (fun _ _ _ _ _ => EmptyString)
    (fun v => Py.Raise (Py.Exn Py.TypeError
                          ("expected str, bytes or os.PathLike object, not "
                             +:+ Py.type_name v)))
    (fun v => Py.Raise (Py.attribute_error v "strip")).

Definition call (w t n : string) (c : Py.value) : option (gmap string Py.value) :=
  Some (list_to_map
          [ ("world_directory", Py.PStr w); ("taxonomy", Py.PStr t);
            ("entry_name", Py.PStr n); ("entry_content", c) ]).

Definition red_oak (c : string) : option (gmap string Py.value) :=
  call "world" "flora" "Red Oak" (Py.PStr c).

Definition red_oak_file : FS.path := "red-oak.md" :: "flora" :: "entries" :: world.

(** The file section 8 expects for the entry [Red Oak] with the content
    [A tall tree.] *)
Definition red_oak_document : string :=
  "---" +:+ PyStr.nl
    +:+ "description: " +:+ PyStr.dquote +:+ "A tall tree." +:+ PyStr.dquote +:+ PyStr.nl
    +:+ "article_type: " +:+ PyStr.dquote +:+ "full" +:+ PyStr.dquote +:+ PyStr.nl
    +:+ "taxonomyContext: " +:+ PyStr.dquote +:+ "Plants of the world." +:+ PyStr.dquote
    +:+ PyStr.nl
    +:+ "---" +:+ PyStr.nl
    +:+ PyStr.nl
    +:+ "A tall tree."
    +:+ PyStr.nl +:+ PyStr.nl +:+ "---" +:+ PyStr.nl
    +:+ "*Entry in Flora taxonomy*" +:+ PyStr.nl.

(** A stand-in for the handlers of the other entry tools. *)
Definition other_tool : option (gmap string Py.value) -> Comp.M (list TextContent) :=
  fun _ => Comp.ret (text_content "done").

End Example.

(** ** Shape of the file tree *)

Module Tree.

(** Every path that exists lies in a directory that exists. *)
Definition well_formed (fs : FS.state) : Prop :=
  forall x p nd, fs !! (x :: p) = Some nd -> fs !! p = Some FS.Dir.

(** Nothing is removed and nothing changes its kind or content, except
    that the content of the regular file at [file] may change. *)
Definition kept_except (file : FS.path) (fs fs' : FS.state) : Prop :=
  (forall p nd, p <> file -> fs !! p = Some nd -> fs' !! p = Some nd)
  /\ (fs !! file = Some FS.Dir -> fs' !! file = Some FS.Dir)
  /\ (forall c, fs !! file = Some (FS.File c) -> exists c', fs' !! file = Some (FS.File c')).

(** Where the file system can be after the handler: as it was, after the
    [mkdir] of an entry directory (finished, or failed on the way with
    some parents made), or after the write of an entry file. *)
Definition reached (pm : FS.perms) (fs fs' : FS.state) : Prop :=
  fs' = fs
  \/ exists wp ct ce r fs1,
       FS.mkdir_parents pm (Creation.entry_dir wp ct) fs = (r, fs1)
       /\ (fs' = fs1
           \/ exists doc,
                FS.write_text pm (Creation.entry_file_path wp ct ce) doc fs1 = Py.Ok fs').

End Tree.

(** ** [test_fal_api.py]: loading the [.env] file *)

Module TestFalApi.

(** [os.environ] *)
Abbreviation environ := (gmap string string).

Definition lf : ascii := "010"%char.
Definition cr : ascii := "013"%char.
Definition nul : ascii := "000"%char.

(** The lines the iteration [for line in f] yields on a file opened in
    text mode: [\n], [\r\n] and [\r] each end a line and are read as
    [\n]; a last line without an ending is yielded as it is. *)
Fixpoint readlines (s : string) : list string :=
  match s with
  | EmptyString => []
  | String a s' =>
      if decide (a = lf) then PyStr.nl :: readlines s'
      else if decide (a = cr) then
        match s' with
        | String b s'' =>
            if decide (b = lf) then PyStr.nl :: readlines s'' else PyStr.nl :: readlines s'
        | EmptyString => [PyStr.nl]
        end
      else
        match readlines s' with
        | [] => [String a EmptyString]
        | l :: ls => String a l :: ls
        end
  end.

(** [c in s] for one character *)
Fixpoint contains (c : ascii) (s : string) : bool :=
  match s with
  | EmptyString => false
  | String a s' => if decide (a = c) then true else contains c s'
  end.

(** [s.split(sep, 1)] for a separator that occurs in [s]: the text before
    its first occurrence and the text after it.  (Without an occurrence
    the unpacking into two names would raise; the guard of line 18 keeps
    the call from that case.) *)
Fixpoint split_once (sep : ascii) (s : string) : string * string :=
  match s with
  | EmptyString => (EmptyString, EmptyString)
  | String a s' =>
      if decide (a = sep) then (EmptyString, s')
      else let (k, v) := split_once sep s' in (String a k, v)
  end.

(** [os.environ[key] = value] on a POSIX system: a NUL character in the
    name or the value is a [ValueError]; [setenv] refuses the empty name
    with [EINVAL], an [OSError]. *)
Definition putenv (key value : string) (env : environ) : Py.result environ :=
  if contains nul key || contains nul value
  then Py.Raise (Py.Exn Py.ValueError "embedded null byte")
  else if PyStr.nonempty key then Py.Ok (<[key := value]> env)
  else Py.Raise (Py.Exn Py.OtherException "[Errno 22] Invalid argument").

(** The name and the value one line assigns (lines 17-21), when it
    assigns any. *)
Definition assignment (line : string) : option (string * string) :=
  let line := PyStr.strip line in
  if PyStr.nonempty line && negb (PyStr.startswith "#" line) && contains "=" line then
    let (key, value) := split_once "=" line in
    Some (PyStr.strip key, PyStr.strip value)
  else None.

(** The loop of lines 16-21.  An exception leaves the loop; what was
    assigned before it stays. *)
Fixpoint load_lines (lines : list string) (env : environ) : Py.result unit * environ :=
  match lines with
  | [] => (Py.Ok tt, env)
  | line :: rest =>
      match assignment line with
      | Some (key, value) =>
          match env !! key with
          | Some _ => load_lines rest env
          | None =>
              match putenv key value env with
              | Py.Ok env1 => load_lines rest env1
              | Py.Raise e => (Py.Raise e, env)
              end
          end
      | None => load_lines rest env
      end
  end.

(** [load_env_file()], for a script that lies in the directory [here]. *)
Definition load_env_file (pm : FS.perms) (here : FS.path) (fs : FS.state) (env : environ)
  : Py.result unit * environ :=
  let env_path := FS.div here ".env" in
  if FS.exists_ fs env_path then
    match FS.read_text pm env_path fs with
    | Py.Ok content => load_lines (readlines content) env
    | Py.Raise e => (Py.Raise e, env)
    end
  else (Py.Ok tt, env).

End TestFalApi.

(** ** More of the sample world *)

Module Sample.

(** Nothing may be created inside [entries/flora]. *)
Definition closed_flora : FS.perms :=
  FS.Perms (fun _ => true)
           (fun p => negb (bool_decide (p = "flora" :: "entries" :: Example.world))).

Definition helpers_under (pm : FS.perms) : Helpers :=
  Utilities.spec_helpers pm Example.base PyStr.title
    (fun _ _ _ _ _ => EmptyString)
    (fun v => Py.Raise (Py.Exn Py.TypeError
                          ("expected str, bytes or os.PathLike object, not "
                             +:+ Py.type_name v)))
    (fun v => Py.Raise (Py.attribute_error v "strip")).

(** Nothing may be created inside [entries]. *)
Definition closed_entries : FS.perms :=
  FS.Perms (fun _ => true)
           (fun p => negb (bool_decide (p = "entries" :: Example.world))).

(** The sample world after [mkdir] of [entries] alone. *)
Definition fs_with_entries_dir : FS.state :=
  <["entries" :: Example.world := FS.Dir]> Example.fs0.

(** A call that leaves [taxonomy] out. *)
Definition without_taxonomy (w n : string) (c : Py.value) : gmap string Py.value :=
  list_to_map
    [ ("world_directory", Py.PStr w); ("entry_name", Py.PStr n); ("entry_content", c) ].

(** The sample world after [mkdir] of [entries/flora]. *)
Definition fs_with_flora_dir : FS.state :=
  <["flora" :: "entries" :: Example.world := FS.Dir]>
    (<["entries" :: Example.world := FS.Dir]> Example.fs0).

(** A call whose [world_directory] is the number 5. *)
Definition numeric_world : option (gmap string Py.value) :=
  Some (list_to_map
          [ ("world_directory", Py.PObj "int" true "5"); ("taxonomy", Py.PStr "flora");
            ("entry_name", Py.PStr "Red Oak"); ("entry_content", Py.PStr "A tall tree.") ]).

(** A call whose [entry_content] is the number 5, and nothing else. *)
Definition numeric_content : gmap string Py.value :=
  {[ "entry_content" := Py.PObj "int" true "5" ]}.

(** The call for [Red Oak] with one more argument. *)
Definition red_oak_styled : gmap string Py.value :=
  <["style" := Py.PStr "watercolour"]> (default ∅ (Example.red_oak "A tall tree.")).

(** An overview file of 600 characters. *)
Fixpoint repeat_char (a : ascii) (n : nat) : string :=
  match n with
  | O => EmptyString
  | S n' => String a (repeat_char a n')
  end.
Definition fs_long_overview : FS.state :=
  <["world-overview.md" :: "overview" :: Example.world := FS.File (repeat_char "a" 600)]>
    (<["overview" :: Example.world := FS.Dir]> Example.fs0).

(** A [.env] file beside the script, and an environment that sets
    [MODE]. *)
Definition env_text : string :=
  "# keys" +:+ PyStr.nl +:+ PyStr.nl
    +:+ "FAL_KEY = abc " +:+ PyStr.nl
    +:+ "FAL_KEY=other" +:+ PyStr.nl
    +:+ "MODE=dev" +:+ PyStr.nl
    +:+ "no assignment here".
Definition fs_env : FS.state :=
  list_to_map [ ([], FS.Dir); (["src"], FS.Dir); ([".env"; "src"], FS.File env_text) ].
Definition environ0 : TestFalApi.environ := {[ "MODE" := "prod" ]}.

End Sample.

(** * Properties *)

(** Closed goals about the sample world are settled by evaluation. *)
Ltac evaluate :=
  lazymatch goal with
  | |- _ = ?r => vm_cast_no_check (@eq_refl _ r)
  | |- not (_ = _) => let E := fresh in intros E; discriminate E
  | |- _ => split; evaluate
  end.

(** ** Strings *)

Lemma lstrip_all_space (s : string) :
  PyStr.all_space s = true -> PyStr.lstrip s = EmptyString.
Proof.
  induction s as [|a s IH]; simpl; [done|].
  intros [Ha Hs]%andb_prop. rewrite Ha. auto.
Qed.

Lemma strip_all_space (s : string) :
  PyStr.all_space s = true -> PyStr.strip s = EmptyString.
Proof. intros Hs. unfold PyStr.strip. by rewrite lstrip_all_space. Qed.

Lemma append_empty_r (s : string) : s +:+ EmptyString = s.
Proof. induction s as [|a s IH]; [done|]. unfold String.app in *. simpl. by rewrite IH. Qed.

Lemma append_empty_l (s : string) : EmptyString +:+ s = s.
Proof. done. Qed.

Lemma append_assoc (s1 s2 s3 : string) : (s1 +:+ s2) +:+ s3 = s1 +:+ s2 +:+ s3.
Proof.
  induction s1 as [|a s1 IH]; [done|]. unfold String.app in *. simpl. by rewrite IH.
Qed.

Lemma append_cons (a : ascii) (s1 s2 : string) : String a s1 +:+ s2 = String a (s1 +:+ s2).
Proof. done. Qed.

Lemma occurs_in_refl (x : string) : PyStr.occurs_in x x.
Proof. exists EmptyString, EmptyString. by rewrite append_empty_r. Qed.

Lemma occurs_in_app_l (x s pre : string) :
  PyStr.occurs_in x s -> PyStr.occurs_in x (pre +:+ s).
Proof.
  intros (p & q & ->). exists (pre +:+ p), q. by rewrite append_assoc.
Qed.

Lemma occurs_in_app_r (x s post : string) :
  PyStr.occurs_in x s -> PyStr.occurs_in x (s +:+ post).
Proof.
  intros (p & q & ->). exists p, (q +:+ post). by rewrite !append_assoc.
Qed.

Lemma occurs_in_join (sep x : string) (l : list string) :
  x ∈ l -> PyStr.occurs_in x (PyStr.join sep l).
Proof.
  induction l as [|y l IH]; [by intros ?%elem_of_nil|].
  intros [->|Hx]%elem_of_cons.
  - destruct l as [|z l]; simpl; [apply occurs_in_refl|].
    apply occurs_in_app_r, occurs_in_refl.
  - destruct l as [|z l]; [by apply elem_of_nil in Hx|].
    change (PyStr.join sep (y :: z :: l)) with (y +:+ sep +:+ PyStr.join sep (z :: l)).
    by apply occurs_in_app_l, occurs_in_app_l, IH.
Qed.

(** ** The handler, stage by stage *)

Section HandlerStages.
Variable pm : FS.perms.
Variable H : Helpers.

Local Abbreviation cwe := (Creation.create_world_entry pm H).
Local Abbreviation cwe_try := (Creation.create_world_entry_try pm H).

(** With [entry_content] a string, line 73 passes and the handler is the
    argument check followed by the guarded block. *)
Lemma create_world_entry_typed (d : gmap string Py.value) (c : string) (fs : FS.state) :
  d <> ∅ -> Calls.content_is d c ->
  cwe (Some d) fs =
    if Py.all [Calls.arg d "world_directory"; Calls.arg d "taxonomy"; Calls.arg d "entry_name"]
    then match cwe_try (Calls.arg d "world_directory") (Calls.arg d "taxonomy")
                 (Calls.arg d "entry_name") (Py.PStr c) fs with
         | (Py.Ok r, fs') => (Py.Ok r, fs')
         | (Py.Raise e, fs') => (Py.Ok (text_content (Creation.failure_text e)), fs')
         end
    else (Py.Ok (text_content "Error: world_directory, taxonomy, and entry_name are required"),
          fs).
Proof.
  intros Hd Hc. unfold Creation.create_world_entry.
  rewrite bool_decide_eq_false_2 by done.
  unfold Calls.content_is, Calls.arg in *. rewrite Hc.
  unfold Comp.bind, Comp.lift, Comp.try_except, Comp.ret; simpl.
  by destruct (Py.truthy _ && _).
Qed.

(** A call whose [entry_content] is a string always returns a response. *)
Lemma create_world_entry_returns (arguments : option (gmap string Py.value)) (fs : FS.state) :
  Calls.content_typed arguments ->
  exists r fs', cwe arguments fs = (Py.Ok r, fs').
Proof.
  destruct arguments as [d|]; [|by eexists _, _].
  intros [c Hc]. destruct (decide (d = ∅)) as [->|Hd].
  { unfold Creation.create_world_entry. rewrite bool_decide_eq_true_2 by done.
    by eexists _, _. }
  rewrite (create_world_entry_typed d c) by done.
  destruct (Py.all _); [|by eexists _, _].
  destruct (cwe_try _ _ _ _ fs) as [[r|e] fs']; by eexists _, _.
Qed.

Lemma create_world_entry_try_blank (wd tax en : Py.value) (c : string) (fs : FS.state) :
  PyStr.strip c = EmptyString ->
  cwe_try wd tax en (Py.PStr c) fs = cwe_try wd tax en (Py.PStr EmptyString) fs
  /\ (cwe_try wd tax en (Py.PStr c) fs).2 = fs.
Proof.
  intros Hc. unfold Creation.create_world_entry_try.
  unfold Comp.bind, Comp.lift, Comp.reads, Comp.as_str, Comp.ret; simpl.
  destruct (resolve_world_path H wd) as [wp|e]; simpl; [|done].
  destruct (FS.exists_ fs wp); simpl; [|done].
  destruct (clean_name H tax) as [ct|e]; simpl; [|done].
  destruct (clean_name H en) as [ce|e]; simpl; [|done].
  destruct (FS.exists_ fs _); simpl; [|done].
  by rewrite Hc.
Qed.

End HandlerStages.

(** ** Missing arguments, missing world, missing taxonomy *)

Section Failures.
Variable pm : FS.perms.
Variable H : Helpers.

Local Abbreviation cwe := (Creation.create_world_entry pm H).

(** X17.  When one of [world_directory], [taxonomy], [entry_name] is
    missing (or falsy, or there are no arguments at all), and
    [entry_content] is a string where given, the handler returns one error
    text, and that text and the untouched file system are the same
    whatever the file system holds: nothing is read, nothing is
    written. *)
Theorem missing_argument_fails_before_any_access
    (arguments : option (gmap string Py.value)) :
  Calls.missing_required arguments ->
  Calls.content_typed arguments ->
  exists msg,
    PyStr.startswith "Error" msg = true
    /\ forall fs, cwe arguments fs = (Py.Ok (text_content msg), fs).
Proof.
  destruct arguments as [d|].
  - intros Hmiss [c Hc]. unfold Calls.missing_required in Hmiss.
    destruct (decide (d = ∅)) as [->|Hd].
    + exists "Error: No arguments provided". split; [done|]. intros fs.
      unfold Creation.create_world_entry. by rewrite bool_decide_eq_true_2.
    + exists "Error: world_directory, taxonomy, and entry_name are required".
      split; [done|]. intros fs.
      rewrite (create_world_entry_typed pm H d c) by done. by rewrite Hmiss.
  - intros _ _. by exists "Error: No arguments provided".
Qed.

(** X18.  When the resolved world directory does not exist, and
    [entry_content] is a string where given, the handler returns the
    error text naming it and leaves the file system as it was. *)
Theorem missing_world_fails_without_write
    (d : gmap string Py.value) (w c : string) (fs : FS.state) :
  Calls.arg d "world_directory" = Py.PStr w ->
  Py.truthy (Calls.arg d "taxonomy") = true ->
  Py.truthy (Calls.arg d "entry_name") = true ->
  Calls.content_is d c ->
  w <> EmptyString ->
  FS.exists_ fs (Calls.resolved H w) = false ->
  cwe (Some d) fs
    = (Py.Ok (text_content (Creation.missing_world_text (Calls.resolved H w))), fs)
  /\ PyStr.startswith "Error" (Creation.missing_world_text (Calls.resolved H w)) = true
  /\ PyStr.occurs_in (FS.path_str (Calls.resolved H w))
       (Creation.missing_world_text (Calls.resolved H w)).
Proof.
  intros Hw Ht Hn Hc Hne Hex. split; [|split; [done|]].
  - assert (d <> ∅) as Hd.
    { intros ->. unfold Calls.arg, Py.get in Hw. rewrite lookup_empty in Hw. congruence. }
    rewrite (create_world_entry_typed pm H d c) by done.
    rewrite Hw. unfold Py.all, forallb. rewrite Ht, Hn. destruct w; [done|]. simpl.
    unfold Creation.create_world_entry_try, Comp.bind, Comp.lift, Comp.reads; simpl.
    unfold Calls.resolved in Hex. by rewrite Hex.
  - unfold Creation.missing_world_text. apply occurs_in_app_l, occurs_in_app_r, occurs_in_refl.
Qed.

End Failures.

(** ** The guarded block on string arguments *)

Section Strings.
Variable pm : FS.perms.
Variable H : Helpers.

Local Abbreviation cwe := (Creation.create_world_entry pm H).
Local Abbreviation cwe_try := (Creation.create_world_entry_try pm H).

(** [_create_entry_file] for a string taxonomy: make the directory, then
    write the document. *)
Lemma create_entry_file_stages
    (wp : FS.path) (ct ce : string) (en : Py.value) (c t tctx : string) (fs : FS.state) :
  Creation._create_entry_file pm H wp ct ce en c (Py.PStr t) tctx fs =
    match FS.mkdir_parents pm (Creation.entry_dir wp ct) fs with
    | (Py.Ok _, fs1) =>
        match FS.write_text pm (Creation.entry_file_path wp ct ce)
                (Calls.entry_document H c tctx t) fs1 with
        | Py.Ok fs2 => (Py.Ok (Creation.entry_file_path wp ct ce), fs2)
        | Py.Raise e => (Py.Raise e, fs1)
        end
    | (Py.Raise e, fs1) => (Py.Raise e, fs1)
    end.
Proof.
  unfold Creation._create_entry_file, Comp.bind, Comp.update, Comp.lift, Comp.ret. simpl.
  destruct (FS.mkdir_parents _ _ _) as [[[]|e] fs1]; [|done].
  unfold Calls.entry_document. by destruct (FS.write_text _ _ _ _) as [fs2|e].
Qed.

(** The guarded block when the three names are strings. *)
Lemma create_world_entry_try_strings (w t n c : string) (fs : FS.state) :
  cwe_try (Py.PStr w) (Py.PStr t) (Py.PStr n) (Py.PStr c) fs =
    let wp := Calls.resolved H w in
    let ct := Calls.slug H t in
    let ce := Calls.slug H n in
    let tctx := extract_taxonomy_context H fs wp ct in
    if FS.exists_ fs wp then
      if FS.exists_ fs (Creation.taxonomy_overview_path wp ct) then
        if PyStr.nonempty (PyStr.strip c) then
          match Creation._create_entry_file pm H wp ct ce (Py.PStr n) c (Py.PStr t) tctx fs with
          | (Py.Ok entry_file, fs2) =>
              match FS.relative_to entry_file wp with
              | Py.Ok relative_path =>
                  (Py.Ok (text_content
                            (Creation.created_text (Py.PStr n)
                               (Calls.world_context pm H fs wp ct (Py.PStr t))
                               relative_path tctx EmptyString
                               (generate_stub_analysis H fs2 wp (Py.PStr n) (Py.PStr t) c))),
                   fs2)
              | Py.Raise e => (Py.Raise e, fs2)
              end
          | (Py.Raise e, fs2) => (Py.Raise e, fs2)
          end
        else
          (Py.Ok (text_content
                    (Creation.context_only_text (Py.PStr n) (Py.PStr t)
                       (Calls.world_context pm H fs wp ct (Py.PStr t)))), fs)
      else
        (Py.Ok (text_content
                  (Creation.missing_taxonomy_text (Py.PStr t)
                     (get_existing_taxonomies H fs wp))), fs)
    else (Py.Ok (text_content (Creation.missing_world_text wp)), fs).
Proof.
  unfold Creation.create_world_entry_try.
  unfold Comp.bind at 1 2 3 4 5 6 7 8 9. unfold Comp.lift, Comp.reads, Comp.as_str, Comp.ret.
  simpl. unfold Calls.resolved, Calls.slug, Calls.world_context.
  destruct (FS.exists_ fs (resolve_world_path_str H w)); simpl; [|done].
  destruct (FS.exists_ fs (Creation.taxonomy_overview_path _ _)); simpl; [|done].
  destruct (PyStr.nonempty (PyStr.strip c)); [|done].
  unfold Comp.bind, Creation._generate_optimized_entry_image, Comp.ret.
  destruct (Creation._create_entry_file _ _ _ _ _ _ _ _ _ _) as [[f|e] fs2]; [|done].
  by destruct (FS.relative_to f _).
Qed.

(** A call with string arguments reaches the guarded block. *)
Lemma create_world_entry_strings (d : gmap string Py.value) (w t n c : string) (fs : FS.state) :
  Calls.names_are d w t n -> Calls.content_is d c ->
  w <> EmptyString -> t <> EmptyString -> n <> EmptyString ->
  cwe (Some d) fs =
    match cwe_try (Py.PStr w) (Py.PStr t) (Py.PStr n) (Py.PStr c) fs with
    | (Py.Ok r, fs') => (Py.Ok r, fs')
    | (Py.Raise e, fs') => (Py.Ok (text_content (Creation.failure_text e)), fs')
    end.
Proof.
  intros (Hw & Ht & Hn) Hc ? ? ?.
  assert (d <> ∅) as Hd.
  { intros ->. unfold Calls.arg, Py.get in Hw. rewrite lookup_empty in Hw. congruence. }
  rewrite (create_world_entry_typed pm H d c fs Hd Hc), Hw, Ht, Hn.
  by destruct w, t, n.
Qed.

(** With an existing world and taxonomy, content that is blank gets the
    context block and leaves the file system alone. *)
Lemma blank_content_context_only (d : gmap string Py.value) (w t n c : string) (fs : FS.state) :
  Calls.names_are d w t n -> Calls.content_is d c ->
  w <> EmptyString -> t <> EmptyString -> n <> EmptyString ->
  PyStr.strip c = EmptyString ->
  FS.exists_ fs (Calls.resolved H w) = true ->
  FS.exists_ fs (Creation.taxonomy_overview_path (Calls.resolved H w) (Calls.slug H t)) = true ->
  cwe (Some d) fs =
    (Py.Ok (text_content
              (Creation.context_only_text (Py.PStr n) (Py.PStr t)
                 (Calls.world_context pm H fs (Calls.resolved H w) (Calls.slug H t)
                    (Py.PStr t)))),
     fs).
Proof.
  intros Hnames Hc Hw Ht Hn Hblank Hworld Hover.
  rewrite (create_world_entry_strings d w t n c fs) by done.
  rewrite create_world_entry_try_strings. simpl. by rewrite Hworld, Hover, Hblank.
Qed.

End Strings.

(** ** Content that is not a string, content that is blank *)

Section Content.
Variable pm : FS.perms.
Variable H : Helpers.

Local Abbreviation cwe := (Creation.create_world_entry pm H).

Lemma call_lookup (w t n : string) (c : Py.value) (d : gmap string Py.value) :
  Example.call w t n c = Some d ->
  d <> ∅ /\ Calls.arg d "world_directory" = Py.PStr w /\ Calls.arg d "taxonomy" = Py.PStr t
  /\ Calls.arg d "entry_name" = Py.PStr n /\ Calls.arg d "entry_content" = c.
Proof.
  intros [= <-]. simpl. split; [apply insert_non_empty|].
  unfold Calls.arg, Py.get. by simplify_map_eq.
Qed.

(** C8.  The failing input: a call whose [entry_content] is [None] (JSON
    [null]).  The debug print of line 73 calls [strip] on it before the
    argument check and outside the [try] block, so the [AttributeError]
    leaves the handler instead of becoming an error text, whatever the
    collaborators and the file system are; the router re-raises it. *)
Theorem none_content_raises_outside_the_try
    (w t n : string) (fs : FS.state)
    (create_stub_entries generate_entry_descriptions add_entry_frontmatter
       analyze_world_consistency : Tools.handler) :
  cwe (Example.call w t n Py.PNone) fs
    = (Py.Raise (Py.attribute_error Py.PNone "strip"), fs)
  /\ Tools.handle_entry_tool pm H create_stub_entries generate_entry_descriptions
       add_entry_frontmatter analyze_world_consistency
       "create_world_entry" (Example.call w t n Py.PNone) fs
     = (Py.Raise (Py.attribute_error Py.PNone "strip"), fs).
Proof.
  destruct (Example.call w t n Py.PNone) as [d|] eqn:Hd; [|done].
  apply call_lookup in Hd as (Hne & _ & _ & _ & Hc).
  assert (cwe (Some d) fs = (Py.Raise (Py.attribute_error Py.PNone "strip"), fs)) as Hcwe.
  { unfold Creation.create_world_entry. rewrite bool_decide_eq_false_2 by done.
    unfold Calls.arg in Hc. rewrite Hc. done. }
  split; [done|].
  unfold Tools.handle_entry_tool, Tools.ENTRY_HANDLERS, Tools.handler_for.
  rewrite decide_True by done. unfold Comp.try_except. by rewrite Hcwe.
Qed.

(** Whitespace-only content is no content: the handler's result is the one
    for empty content, and the file system is not touched. *)
Lemma blank_content_as_empty (d : gmap string Py.value) (c : string) (fs : FS.state) :
  Calls.content_is d c -> c <> EmptyString -> PyStr.strip c = EmptyString ->
  cwe (Some d) fs = cwe (Some (<["entry_content" := Py.PStr EmptyString]> d)) fs
  /\ (cwe (Some d) fs).2 = fs.
Proof.
  intros Hc Hne Hblank.
  assert (d <> ∅) as Hd.
  { intros ->. unfold Calls.content_is, Calls.arg, Py.get in Hc.
    rewrite lookup_empty in Hc. congruence. }
  set (d' := <["entry_content" := Py.PStr EmptyString]> d).
  assert (Calls.content_is d' EmptyString) as Hc'.
  { unfold Calls.content_is, Calls.arg, Py.get, d'. by rewrite lookup_insert_eq. }
  assert (forall k, k <> "entry_content" -> Calls.arg d' k = Calls.arg d k) as Hk.
  { intros k Hk. unfold Calls.arg, Py.get, d'. by rewrite lookup_insert_ne. }
  rewrite (create_world_entry_typed pm H d c fs Hd Hc).
  assert (d' <> ∅) as Hd' by apply insert_non_empty.
  rewrite (create_world_entry_typed pm H d' EmptyString fs Hd' Hc').
  rewrite !Hk by done.
  destruct (Py.all _); [|done].
  destruct (create_world_entry_try_blank pm H (Calls.arg d "world_directory")
              (Calls.arg d "taxonomy") (Calls.arg d "entry_name") c fs Hblank) as [Heq Hfs].
  rewrite <- Heq.
  destruct (Creation.create_world_entry_try pm H _ _ _ (Py.PStr c) fs) as [[r|e] fs'];
    simpl in *; by subst.
Qed.

(** C10.  For every call whose [entry_content] is a non-empty string of
    whitespace only, the handler does exactly what it does for the same
    call with empty [entry_content], and the file system stays as it was:
    presence of content is decided after stripping whitespace.  With string
    arguments, an existing world and an existing taxonomy, what it returns
    is the context block alone. *)
Theorem whitespace_content_is_no_content
    (d : gmap string Py.value) (c : string) (fs : FS.state) :
  Calls.content_is d c -> c <> EmptyString -> PyStr.all_space c = true ->
  cwe (Some d) fs = cwe (Some (<["entry_content" := Py.PStr EmptyString]> d)) fs
  /\ (cwe (Some d) fs).2 = fs
  /\ (forall w t n,
        Calls.names_are d w t n ->
        w <> EmptyString -> t <> EmptyString -> n <> EmptyString ->
        FS.exists_ fs (Calls.resolved H w) = true ->
        FS.exists_ fs (Creation.taxonomy_overview_path (Calls.resolved H w) (Calls.slug H t))
          = true ->
        cwe (Some d) fs =
          (Py.Ok (text_content
                    (Creation.context_only_text (Py.PStr n) (Py.PStr t)
                       (Calls.world_context pm H fs (Calls.resolved H w) (Calls.slug H t)
                          (Py.PStr t)))),
           fs)).
Proof.
  intros Hc Hne Hs. apply strip_all_space in Hs as Hblank.
  destruct (blank_content_as_empty d c fs Hc Hne Hblank) as [Heq Hfs].
  split; [done|]. split; [done|].
  intros w t n Hnames Hw Ht Hn Hworld Hover.
  by apply (blank_content_context_only pm H d w t n c).
Qed.

End Content.

(** ** The taxonomy listing of the specification *)

Lemma length_append (s1 s2 : string) :
  String.length (s1 +:+ s2) = String.length s1 + String.length s2.
Proof. induction s1 as [|a s1 IH]; [done|]. rewrite append_cons. simpl. by rewrite IH. Qed.

Lemma remove_suffix_append (suffix x : string) :
  Utilities.remove_suffix suffix (x +:+ suffix) = Some x.
Proof.
  induction x as [|a x IH].
  - change (EmptyString +:+ suffix) with suffix.
    destruct suffix; simpl; by repeat case_decide.
  - rewrite append_cons. simpl. rewrite decide_False.
    + by rewrite IH.
    + intros Heq. apply (f_equal String.length) in Heq. simpl in Heq.
      rewrite length_append in Heq. lia.
Qed.

(** Every overview file under [taxonomies/] is listed. *)
Lemma get_existing_taxonomies_complete
    (display : string -> string) (fs : FS.state) (wp : FS.path) (x : string) (nd : FS.node) :
  fs !! ((x +:+ Utilities.overview_file_suffix) :: FS.div wp "taxonomies") = Some nd ->
  display x ∈ Utilities.get_existing_taxonomies display fs wp.
Proof.
  intros Hx. unfold Utilities.get_existing_taxonomies.
  apply list_elem_of_fmap. exists x. split; [done|].
  apply list_elem_of_omap.
  exists ((x +:+ Utilities.overview_file_suffix) :: FS.div wp "taxonomies", nd). split.
  - by apply elem_of_map_to_list.
  - unfold Utilities.taxonomy_of_entry. simpl. rewrite decide_True by done.
    apply remove_suffix_append.
Qed.

(** ** Missing taxonomy, empty content *)

Section Reports.
Variable pm : FS.perms.
Variable H : Helpers.

Local Abbreviation cwe := (Creation.create_world_entry pm H).

(** X19.  When the taxonomy of the call has no overview file
    [taxonomies/<taxonomy-slug>-overview.md] under the world root, and
    [entry_content] is a string where given, the handler returns one error
    text that contains every name [get_existing_taxonomies] reports, and
    the file system is as it was.  With the listing of the specification,
    every overview file present under [taxonomies/] has its display name
    in the text. *)
Theorem missing_taxonomy_lists_taxonomies
    (d : gmap string Py.value) (w t n c : string) (fs : FS.state) :
  Calls.names_are d w t n -> Calls.content_is d c ->
  w <> EmptyString -> t <> EmptyString -> n <> EmptyString ->
  FS.exists_ fs (Calls.resolved H w) = true ->
  FS.exists_ fs (Creation.taxonomy_overview_path (Calls.resolved H w) (Calls.slug H t)) = false ->
  let msg :=
    Creation.missing_taxonomy_text (Py.PStr t)
      (get_existing_taxonomies H fs (Calls.resolved H w)) in
  cwe (Some d) fs = (Py.Ok (text_content msg), fs)
  /\ PyStr.startswith "Error" msg = true
  /\ (forall name, name ∈ get_existing_taxonomies H fs (Calls.resolved H w) ->
        PyStr.occurs_in name msg)
  /\ (forall display,
        get_existing_taxonomies H = Utilities.get_existing_taxonomies display ->
        forall x nd,
          fs !! ((x +:+ Utilities.overview_file_suffix)
                   :: FS.div (Calls.resolved H w) "taxonomies") = Some nd ->
          PyStr.occurs_in (display x) msg).
Proof.
  intros Hnames Hc Hw Ht Hn Hworld Hover msg.
  assert (forall name, name ∈ get_existing_taxonomies H fs (Calls.resolved H w) ->
            PyStr.occurs_in name msg) as Hlisted.
  { intros name Hin. unfold msg, Creation.missing_taxonomy_text.
    do 3 apply occurs_in_app_l. apply occurs_in_app_r.
    destruct (get_existing_taxonomies H fs (Calls.resolved H w)) as [|y l] eqn:Hl;
      [by apply elem_of_nil in Hin|].
    by apply occurs_in_join. }
  split; [|split; [done|split; [done|]]].
  - rewrite (create_world_entry_strings pm H d w t n c fs) by done.
    rewrite create_world_entry_try_strings. simpl. by rewrite Hworld, Hover.
  - intros display Hspec x nd Hx. apply Hlisted. rewrite Hspec.
    by eapply get_existing_taxonomies_complete.
Qed.


End Reports.

(** ** The router *)

Section RouterProperties.
Variable pm : FS.perms.
Variable H : Helpers.
Variables create_stub_entries generate_entry_descriptions add_entry_frontmatter
          analyze_world_consistency : Tools.handler.

Local Abbreviation table :=
  (Tools.ENTRY_HANDLERS pm H create_stub_entries generate_entry_descriptions
     add_entry_frontmatter analyze_world_consistency).
Local Abbreviation route :=
  (Tools.handle_entry_tool pm H create_stub_entries generate_entry_descriptions
     add_entry_frontmatter analyze_world_consistency).

Lemma handler_for_unknown (l : list (string * Tools.handler)) (name : string) :
  name ∉ l.*1 -> Tools.handler_for l name = None.
Proof.
  induction l as [|[k h] l IH]; [done|]. simpl.
  intros [Hk Hl]%not_elem_of_cons. rewrite decide_False by done. auto.
Qed.

Lemma try_reraise {A} (c : Comp.M A) (fs : FS.state) :
  Comp.try_except c (fun e => Comp.raise e) fs = c fs.
Proof. unfold Comp.try_except, Comp.raise. by destruct (c fs) as [[a|e] fs']. Qed.

(** C5.  A tool name that is not a key of [ENTRY_HANDLERS] makes the router
    raise a [ValueError] whose message contains the name, with the file
    system untouched: it does not return, so it returns no empty output.
    For a registered name the router's outcome, result or exception and
    final file system alike, is that of the registered handler. *)
Theorem router_dispatches_or_rejects
    (name : string) (arguments : option (gmap string Py.value)) (fs : FS.state) :
  (name ∉ table.*1 ->
     route name arguments fs = (Py.Raise (Tools.unknown_tool name), fs)
     /\ Py.exn_cls (Tools.unknown_tool name) = Py.ValueError
     /\ PyStr.occurs_in name (Py.exn_str (Tools.unknown_tool name)))
  /\ (forall h, (name, h) ∈ table -> route name arguments fs = h arguments fs).
Proof.
  split.
  - intros Hname. split; [|split; [done|]].
    + unfold Tools.handle_entry_tool. by rewrite handler_for_unknown.
    + simpl. apply occurs_in_app_l, occurs_in_refl.
  - intros h Hin. unfold Tools.handle_entry_tool.
    assert (Tools.handler_for table name = Some h) as ->; [|apply try_reraise].
    unfold Tools.ENTRY_HANDLERS in *.
    repeat (apply elem_of_cons in Hin as [[= -> ->]|Hin];
            [unfold Tools.handler_for; by repeat (rewrite decide_False by done);
               rewrite decide_True by done|]).
    by apply elem_of_nil in Hin.
Qed.

End RouterProperties.

(** ** File-system operations *)

Section FileSystem.
Variable pm : FS.perms.

Lemma os_mkdir_ok (p : FS.path) (fs fs' : FS.state) :
  FS.os_mkdir pm p fs = Py.Ok fs' -> fs' = <[p := FS.Dir]> fs.
Proof.
  unfold FS.os_mkdir. destruct (FS.through_file fs p); [done|].
  destruct (fs !! p); [done|].
  destruct (fs !! FS.parent p) as [[|?]|]; try done.
  destruct (FS.writable pm _); congruence.
Qed.

Lemma mkdir_exist_ok_dir (p : FS.path) (fs fs' : FS.state) :
  FS.mkdir_exist_ok pm p fs = Py.Ok fs' -> fs' !! p = Some FS.Dir.
Proof.
  unfold FS.mkdir_exist_ok. destruct (FS.os_mkdir pm p fs) as [fs1|e] eqn:Hmk.
  - intros [= <-]. apply os_mkdir_ok in Hmk as ->. apply lookup_insert_eq.
  - destruct (FS.is_file_not_found e); [done|].
    unfold FS.is_dir. destruct (fs !! p) as [[|?]|] eqn:Hp; try done. congruence.
Qed.

(** A successful [mkdir(parents=True, exist_ok=True)] leaves a directory at
    the path. *)
Lemma mkdir_parents_dir (p : FS.path) (fs fs' : FS.state) :
  FS.mkdir_parents pm p fs = (Py.Ok tt, fs') -> fs' !! p = Some FS.Dir.
Proof.
  revert fs fs'. induction p as [|x q IH]; intros fs fs'; simpl.
  - destruct (FS.os_mkdir pm [] fs) as [fs1|e] eqn:Hmk.
    + intros [= <-]. apply os_mkdir_ok in Hmk as ->. apply lookup_insert_eq.
    + destruct (FS.is_file_not_found e); [done|].
      unfold FS.is_dir. destruct (fs !! []) as [[|?]|] eqn:Hp; try done. congruence.
  - destruct (FS.os_mkdir pm (x :: q) fs) as [fs1|e] eqn:Hmk.
    + intros [= <-]. apply os_mkdir_ok in Hmk as ->. apply lookup_insert_eq.
    + destruct (FS.is_file_not_found e).
      * destruct (FS.mkdir_parents pm q fs) as [[[]|e'] fs1]; [|done].
        destruct (FS.mkdir_exist_ok pm (x :: q) fs1) as [fs2|e'] eqn:Hlast; [|done].
        intros [= <-]. by apply mkdir_exist_ok_dir in Hlast.
      * unfold FS.is_dir. destruct (fs !! (x :: q)) as [[|?]|] eqn:Hp; try done. congruence.
Qed.

(** On an existing directory it changes nothing. *)
Lemma mkdir_parents_existing (p : FS.path) (fs : FS.state) :
  fs !! p = Some FS.Dir -> FS.mkdir_parents pm p fs = (Py.Ok tt, fs).
Proof.
  intros Hp.
  destruct p as [|x q]; simpl; unfold FS.os_mkdir, FS.is_dir; rewrite Hp;
    by destruct (FS.through_file fs _).
Qed.

(** A successful write puts the content at the path and nothing else. *)
Lemma write_text_ok (p : FS.path) (c : string) (fs fs' : FS.state) :
  FS.write_text pm p c fs = Py.Ok fs' ->
  fs' = <[p := FS.File c]> fs /\ fs !! p <> Some FS.Dir.
Proof.
  unfold FS.write_text. destruct (FS.through_file fs p); [done|].
  destruct (fs !! p) as [[|old]|]; [done| |].
  - destruct (FS.writable pm p); [|done]. by intros [= <-].
  - destruct (fs !! FS.parent p) as [[|?]|]; try done.
    destruct (FS.writable pm _); [|done]. by intros [= <-].
Qed.

End FileSystem.

(** ** Writing the entry *)

Section Writing.
Variable pm : FS.perms.
Variable H : Helpers.

Local Abbreviation cwe := (Creation.create_world_entry pm H).

Lemma failure_is_error (e : Py.exn) :
  Calls.is_error (text_content (Creation.failure_text e)) = true.
Proof. done. Qed.

(** A response that is not an error, to a call with content, comes from
    the end of the creation branch: the directory was made, the document
    written, and the response is the creation report. *)
Lemma created_inv (d : gmap string Py.value) (w t n c : string)
    (fs fs' : FS.state) (r : list TextContent) :
  Calls.names_are d w t n -> Calls.content_is d c ->
  PyStr.nonempty (PyStr.strip c) = true ->
  cwe (Some d) fs = (Py.Ok r, fs') -> Calls.is_error r = false ->
  let wp := Calls.resolved H w in
  let ct := Calls.slug H t in
  let ce := Calls.slug H n in
  let tctx := extract_taxonomy_context H fs wp ct in
  FS.exists_ fs wp = true
  /\ FS.exists_ fs (Creation.taxonomy_overview_path wp ct) = true
  /\ exists fs1 relative_path,
      FS.mkdir_parents pm (Creation.entry_dir wp ct) fs = (Py.Ok tt, fs1)
      /\ FS.write_text pm (Creation.entry_file_path wp ct ce)
           (Calls.entry_document H c tctx t) fs1 = Py.Ok fs'
      /\ FS.relative_to (Creation.entry_file_path wp ct ce) wp = Py.Ok relative_path
      /\ r = text_content
               (Creation.created_text (Py.PStr n)
                  (Calls.world_context pm H fs wp ct (Py.PStr t))
                  relative_path tctx EmptyString
                  (generate_stub_analysis H fs' wp (Py.PStr n) (Py.PStr t) c)).
Proof.
  intros Hnames Hc Hcontent Hrun Hok wp ct ce tctx.
  assert (d <> ∅) as Hd.
  { intros ->. unfold Calls.content_is, Calls.arg, Py.get in Hc.
    rewrite lookup_empty in Hc. injection Hc as <-. done. }
  assert (w <> EmptyString /\ t <> EmptyString /\ n <> EmptyString) as (Hw & Ht & Hn).
  { rewrite (create_world_entry_typed pm H d c fs Hd Hc) in Hrun.
    destruct Hnames as (Hw & Ht & Hn). rewrite Hw, Ht, Hn in Hrun.
    destruct w, t, n; simpl in Hrun; try (injection Hrun as <- <-; done); done. }
  rewrite (create_world_entry_strings pm H d w t n c fs) in Hrun by done.
  rewrite create_world_entry_try_strings in Hrun. simpl in Hrun. fold wp ct ce tctx in Hrun.
  destruct (FS.exists_ fs wp); [|injection Hrun as <- <-; done].
  destruct (FS.exists_ fs (Creation.taxonomy_overview_path wp ct));
    [|injection Hrun as <- <-; done].
  rewrite Hcontent, create_entry_file_stages in Hrun.
  do 2 (split; [done|]).
  destruct (FS.mkdir_parents pm _ fs) as [[[]|e] fs1] eqn:Hmk; [|injection Hrun as <- <-; done].
  destruct (FS.write_text pm _ _ fs1) as [fs2|e] eqn:Hwr; [|injection Hrun as <- <-; done].
  destruct (FS.relative_to _ wp) as [rel|e] eqn:Hrel; [|injection Hrun as <- <-; done].
  injection Hrun as <- <-. by exists fs1, rel.
Qed.

End Writing.

(** ** Paths *)

Lemma split_no_slash (s : string) :
  FS.no_slash s = true -> PyStr.split "/"%char s = [s].
Proof.
  induction s as [|a s IH]; [done|]. simpl.
  intros [Ha Hs]%andb_prop. apply negb_true_iff, bool_decide_eq_false in Ha.
  rewrite decide_False by done. by rewrite IH.
Qed.

Lemma startswith_slash_no_slash (s : string) :
  FS.no_slash s = true -> PyStr.startswith "/" s = false.
Proof.
  destruct s as [|a s]; [done|]. simpl.
  intros [Ha _]%andb_prop. apply negb_true_iff, bool_decide_eq_false in Ha.
  rewrite decide_False; [done|congruence].
Qed.

(** Dividing by one plain component appends it. *)
Lemma div_plain (p : FS.path) (s : string) : FS.plain s = true -> FS.div p s = s :: p.
Proof.
  unfold FS.plain. intros [[Hs Hne]%andb_prop Hdot]%andb_prop.
  apply negb_true_iff, bool_decide_eq_false in Hdot.
  unfold FS.div, FS.segments. rewrite startswith_slash_no_slash, split_no_slash by done.
  rewrite filter_cons_True; [done|]. split; [by destruct s|done].
Qed.

Lemma no_slash_append (s1 s2 : string) :
  FS.no_slash s1 = true -> FS.no_slash s2 = true -> FS.no_slash (s1 +:+ s2) = true.
Proof.
  intros H1 H2. induction s1 as [|a s1 IH]; [done|].
  rewrite append_cons. simpl in *. apply andb_prop in H1 as [-> H1]. auto.
Qed.

Lemma plain_markdown_name (s : string) :
  FS.no_slash s = true -> FS.plain (s +:+ Config.MARKDOWN_EXTENSION) = true.
Proof.
  intros Hs. unfold FS.plain. rewrite no_slash_append by done.
  destruct s as [|a s]; [done|]. rewrite append_cons. simpl.
  rewrite bool_decide_eq_false_2; [done|]. intros [= _ Heq]. by destruct s.
Qed.

(** With slugs that are plain components the entry file is
    [<world>/entries/<taxonomy-slug>/<entry-slug>.md]. *)
Lemma entry_file_path_plain (wp : FS.path) (ct ce : string) :
  FS.plain ct = true -> FS.no_slash ce = true ->
  Creation.entry_file_path wp ct ce
    = (ce +:+ ".md") :: ct :: "entries" :: wp
  /\ FS.relative_to (Creation.entry_file_path wp ct ce) wp
     = Py.Ok ("entries/" +:+ ct +:+ "/" +:+ ce +:+ ".md").
Proof.
  intros Hct Hce. unfold Creation.entry_file_path, Creation.entry_dir.
  rewrite (div_plain wp "entries") by done. rewrite (div_plain _ ct) by done.
  rewrite div_plain by by apply plain_markdown_name.
  split; [done|]. unfold FS.relative_to.
  change ((ce +:+ Config.MARKDOWN_EXTENSION) :: ct :: "entries" :: wp)
    with ([ce +:+ Config.MARKDOWN_EXTENSION; ct; "entries"] ++ wp).
  rewrite rev_app_distr.
  assert (forall (b c : FS.path), FS.strip_prefix b (b ++ c) = Some c) as Hstrip.
  { intros b c'. induction b as [|x b IH]; simpl; [by destruct c'|].
    by rewrite decide_True. }
  rewrite Hstrip. reflexivity.
Qed.

(** ** The entry file *)

Lemma add_frontmatter_without_header (c : string) (f : frontmatter) :
  ContentParsing.split_frontmatter c = None ->
  ContentParsing.add_frontmatter_to_content c f = ContentParsing.render_frontmatter f +:+ c.
Proof.
  intros Hc. unfold ContentParsing.add_frontmatter_to_content,
    ContentParsing.extract_frontmatter. by rewrite Hc.
Qed.

Lemma entry_frontmatter_fields (H : Helpers) (c tctx : string) :
  Creation.entry_frontmatter H c tctx
    = [("description", extract_description_from_content H c); ("article_type", "full")]
        ++ (if PyStr.nonempty tctx then [("taxonomyContext", tctx)] else []).
Proof. unfold Creation.entry_frontmatter. by destruct (PyStr.nonempty tctx). Qed.

Lemma answered_inv (out : Py.result (list TextContent) * FS.state) :
  Calls.answered out = true ->
  exists r, out = (Py.Ok r, out.2) /\ Calls.is_error r = false.
Proof.
  destruct out as [[r|e] fs']; unfold Calls.answered; simpl; [|done].
  intros Hr%negb_true_iff. by exists r.
Qed.

(** What a call with content leaves at the entry path when it answers
    without an error, and what it answers. *)
Lemma written_document (pm : FS.perms) (H : Helpers)
    (d : gmap string Py.value) (w t n c : string) (fs : FS.state) :
  Calls.names_are d w t n -> Calls.content_is d c ->
  PyStr.nonempty (PyStr.strip c) = true ->
  Calls.answered (Creation.create_world_entry pm H (Some d) fs) = true ->
  let wp := Calls.resolved H w in
  let ct := Calls.slug H t in
  let ce := Calls.slug H n in
  let tctx := extract_taxonomy_context H fs wp ct in
  let out := Creation.create_world_entry pm H (Some d) fs in
  exists fs1 relative_path,
    FS.mkdir_parents pm (Creation.entry_dir wp ct) fs = (Py.Ok tt, fs1)
    /\ fs1 !! Creation.entry_file_path wp ct ce <> Some FS.Dir
    /\ out.2 = <[Creation.entry_file_path wp ct ce :=
                   FS.File (Calls.entry_document H c tctx t)]> fs1
    /\ out.1 = Py.Ok (text_content
                        (Creation.created_text (Py.PStr n)
                           (Calls.world_context pm H fs wp ct (Py.PStr t))
                           relative_path tctx EmptyString
                           (generate_stub_analysis H out.2 wp (Py.PStr n) (Py.PStr t) c))).
Proof.
  intros Hnames Hc Hcontent (r & Hrun & Hok)%answered_inv wp ct ce tctx out.
  destruct (created_inv pm H d w t n c fs _ r Hnames Hc Hcontent Hrun Hok)
    as (_ & _ & fs1 & rel & Hmk & Hwr & _ & Hr).
  apply write_text_ok in Hwr as [Hfs' Hnd]. exists fs1, rel.
  split; [done|]. split; [done|]. split; [done|].
  unfold out. rewrite Hrun. simpl. by rewrite Hr.
Qed.

(** C1, as amended.  For every call with string arguments whose
    [entry_content] is not empty after stripping whitespace, and which the
    handler answers without an error (the world directory and the taxonomy
    exist, the directory could be made and the file written), the file at
    the entry path holds [add_frontmatter_to_content] of the raw content
    and of the mapping with [description] (extracted from the content),
    [article_type] = [full] and, when the taxonomy context is not empty,
    [taxonomyContext], followed by the footer that names the title-cased
    taxonomy.  With slugs that are plain path components the entry path is
    [entries/<taxonomy-slug>/<entry-slug>.md] under the world root.  With
    the formatter of the specification and content that has no header
    block of its own, the file is the header block, the raw content and
    the footer.  In the sample world, the call for [Red Oak] in [flora]
    with content [A tall tree.] leaves [Example.red_oak_document] at
    [entries/flora/red-oak.md]. *)
Theorem entry_file_is_frontmatter_content_footer :
  (forall (pm : FS.perms) (H : Helpers)
          (d : gmap string Py.value) (w t n c : string) (fs : FS.state),
     Calls.names_are d w t n -> Calls.content_is d c ->
     PyStr.nonempty (PyStr.strip c) = true ->
     Calls.answered (Creation.create_world_entry pm H (Some d) fs) = true ->
     let wp := Calls.resolved H w in
     let ct := Calls.slug H t in
     let ce := Calls.slug H n in
     let tctx := extract_taxonomy_context H fs wp ct in
     let fields :=
       [("description", extract_description_from_content H c); ("article_type", "full")]
         ++ (if PyStr.nonempty tctx then [("taxonomyContext", tctx)] else []) in
     let footer :=
       PyStr.nl +:+ PyStr.nl +:+ "---" +:+ PyStr.nl
         +:+ "*Entry in " +:+ PyStr.title t +:+ " taxonomy*" +:+ PyStr.nl in
     let fs' := (Creation.create_world_entry pm H (Some d) fs).2 in
     fs' !! Creation.entry_file_path wp ct ce
       = Some (FS.File (add_frontmatter_to_content H c fields +:+ footer))
     /\ (FS.plain ct = true -> FS.no_slash ce = true ->
           Creation.entry_file_path wp ct ce = (ce +:+ ".md") :: ct :: "entries" :: wp)
     /\ (add_frontmatter_to_content H = ContentParsing.add_frontmatter_to_content ->
         ContentParsing.split_frontmatter c = None ->
         fs' !! Creation.entry_file_path wp ct ce
           = Some (FS.File (ContentParsing.render_frontmatter fields +:+ c +:+ footer))))
  /\ (Creation.create_world_entry Example.all_perms Example.helpers
        (Example.red_oak "A tall tree.") Example.fs0).2 !! Example.red_oak_file
     = Some (FS.File Example.red_oak_document).
Proof.
  split; [|evaluate].
  intros pm H d w t n c fs Hnames Hc Hcontent Hans wp ct ce tctx fields footer fs'.
  destruct (written_document pm H d w t n c fs Hnames Hc Hcontent Hans)
    as (fs1 & _ & _ & _ & Hfs' & _).
  assert (fs' !! Creation.entry_file_path wp ct ce
          = Some (FS.File (add_frontmatter_to_content H c fields +:+ footer))) as Hfile.
  { unfold fs'. rewrite Hfs', lookup_insert_eq. unfold Calls.entry_document.
    by rewrite entry_frontmatter_fields. }
  split; [done|]. split.
  - intros Hct Hce. by apply entry_file_path_plain.
  - intros Hspec Hplain. rewrite Hfile, Hspec.
    by rewrite add_frontmatter_without_header, append_assoc.
Qed.

(** C1, a call the claim as stated covers and the handler treats
    otherwise: in the sample world, with the existing taxonomy [flora], the
    content of one space is not empty, the handler answers without an
    error, and no entry file exists afterwards. *)
Lemma nonempty_blank_content_writes_no_file :
  let out :=
    Creation.create_world_entry Example.all_perms Example.helpers
      (Example.red_oak " ") Example.fs0 in
  " " <> EmptyString
  /\ FS.exists_ Example.fs0 Example.world = true
  /\ FS.exists_ Example.fs0
       (Creation.taxonomy_overview_path Example.world "flora") = true
  /\ Calls.answered out = true
  /\ out.2 !! Example.red_oak_file = None
  /\ out.2 = Example.fs0.
Proof. cbv zeta. evaluate. Qed.

(** C1, an instance: the call for [Red Oak] in the sample world. *)
Lemma red_oak_entry_written :
  let out :=
    Creation.create_world_entry Example.all_perms Example.helpers
      (Example.red_oak "A tall tree.") Example.fs0 in
  Calls.answered out = true
  /\ out.2 !! Example.red_oak_file = Some (FS.File Example.red_oak_document)
  /\ PyStr.occurs_in ("description: " +:+ PyStr.dquote +:+ "A tall tree." +:+ PyStr.dquote)
       Example.red_oak_document
  /\ PyStr.occurs_in "*Entry in Flora taxonomy*" Example.red_oak_document.
Proof.
  pose proof (proj1 entry_file_is_frontmatter_content_footer
                Example.all_perms Example.helpers
                (default ∅ (Example.red_oak "A tall tree."))
                "world" "flora" "Red Oak" "A tall tree." Example.fs0) as Hthm.
  assert (Calls.answered
            (Creation.create_world_entry Example.all_perms Example.helpers
               (Example.red_oak "A tall tree.") Example.fs0) = true) as Hans
    by evaluate.
  destruct Hthm as (Hfile & _ & _);
    [evaluate|evaluate|evaluate|exact Hans|].
  split; [exact Hans|]. split.
  - etrans; [exact Hfile|]. evaluate.
  - split.
    + exists ("---" +:+ PyStr.nl),
        (PyStr.nl +:+ "article_type: " +:+ PyStr.dquote +:+ "full" +:+ PyStr.dquote
           +:+ PyStr.nl +:+ "taxonomyContext: " +:+ PyStr.dquote
           +:+ "Plants of the world." +:+ PyStr.dquote +:+ PyStr.nl +:+ "---" +:+ PyStr.nl
           +:+ PyStr.nl +:+ "A tall tree." +:+ PyStr.nl +:+ PyStr.nl +:+ "---" +:+ PyStr.nl
           +:+ "*Entry in Flora taxonomy*" +:+ PyStr.nl).
      evaluate.
    + exists ("---" +:+ PyStr.nl +:+ "description: " +:+ PyStr.dquote +:+ "A tall tree."
                +:+ PyStr.dquote +:+ PyStr.nl
                +:+ "article_type: " +:+ PyStr.dquote +:+ "full" +:+ PyStr.dquote
                +:+ PyStr.nl +:+ "taxonomyContext: " +:+ PyStr.dquote
                +:+ "Plants of the world." +:+ PyStr.dquote +:+ PyStr.nl +:+ "---"
                +:+ PyStr.nl +:+ PyStr.nl +:+ "A tall tree." +:+ PyStr.nl +:+ PyStr.nl
                +:+ "---" +:+ PyStr.nl),
        PyStr.nl.
      evaluate.
Defined.

(** ** Calling twice *)

(** C4, as amended.  Two calls with the same world directory, taxonomy and
    entry name, each with content that is not empty after stripping
    whitespace and each answered without an error: after the second
    call the entry file holds the document built from the second call's
    content (with the taxonomy context as read at the second call), every
    other path is as the first call left it, and the second call has added
    no path: the first file is overwritten, not duplicated.  The second
    answer is the ordinary creation report: nothing in it tells that a file
    was replaced. *)
Theorem second_call_overwrites_first
    (pm : FS.perms) (H : Helpers)
    (d1 d2 : gmap string Py.value) (w t n c1 c2 : string) (fs0 : FS.state) :
  Calls.names_are d1 w t n -> Calls.names_are d2 w t n ->
  Calls.content_is d1 c1 -> Calls.content_is d2 c2 ->
  PyStr.nonempty (PyStr.strip c1) = true -> PyStr.nonempty (PyStr.strip c2) = true ->
  let out1 := Creation.create_world_entry pm H (Some d1) fs0 in
  let out2 := Creation.create_world_entry pm H (Some d2) out1.2 in
  Calls.answered out1 = true -> Calls.answered out2 = true ->
  let wp := Calls.resolved H w in
  let ct := Calls.slug H t in
  let file := Creation.entry_file_path wp ct (Calls.slug H n) in
  out1.2 !! file
    = Some (FS.File (Calls.entry_document H c1 (extract_taxonomy_context H fs0 wp ct) t))
  /\ out2.2 !! file
     = Some (FS.File (Calls.entry_document H c2 (extract_taxonomy_context H out1.2 wp ct) t))
  /\ (forall p, p <> file -> out2.2 !! p = out1.2 !! p)
  /\ dom out2.2 = dom out1.2
  /\ exists relative_path,
      out2.1 = Py.Ok (text_content
                        (Creation.created_text (Py.PStr n)
                           (Calls.world_context pm H out1.2 wp ct (Py.PStr t))
                           relative_path (extract_taxonomy_context H out1.2 wp ct)
                           EmptyString
                           (generate_stub_analysis H out2.2 wp (Py.PStr n) (Py.PStr t) c2))).
Proof.
  intros Hn1 Hn2 Hc1 Hc2 Hs1 Hs2 out1 out2 Ha1 Ha2 wp ct file.
  destruct (written_document pm H d1 w t n c1 fs0 Hn1 Hc1 Hs1 Ha1)
    as (fs1 & _ & Hmk1 & Hnd1 & Hout1 & _).
  destruct (written_document pm H d2 w t n c2 out1.2 Hn2 Hc2 Hs2 Ha2)
    as (fs2 & rel & Hmk2 & _ & Hout2 & Hr2).
  fold wp ct file out1 in Hmk1, Hnd1, Hout1, Hmk2, Hout2, Hr2. fold out2 in Hout2, Hr2.
  apply mkdir_parents_dir in Hmk1.
  assert (file <> Creation.entry_dir wp ct) as Hne by congruence.
  assert (out1.2 !! Creation.entry_dir wp ct = Some FS.Dir) as Hdir.
  { by rewrite Hout1, lookup_insert_ne. }
  rewrite (mkdir_parents_existing pm _ _ Hdir) in Hmk2. injection Hmk2 as <-.
  assert (out1.2 !! file
          = Some (FS.File (Calls.entry_document H c1
                             (extract_taxonomy_context H fs0 wp ct) t))) as Hfile1.
  { by rewrite Hout1, lookup_insert_eq. }
  split; [done|]. split; [rewrite Hout2; apply lookup_insert_eq|]. split; [|split].
  - intros p Hp. by rewrite Hout2, lookup_insert_ne.
  - rewrite Hout2, dom_insert_L. apply (elem_of_dom_2 (D := gset (list string))) in Hfile1.
    set_solver.
  - by exists rel.
Qed.

(** C4, an instance: the entry [Red Oak] of the sample world written
    twice. *)
Lemma red_oak_written_twice :
  let out1 :=
    Creation.create_world_entry Example.all_perms Example.helpers
      (Example.red_oak "A tall tree.") Example.fs0 in
  let out2 :=
    Creation.create_world_entry Example.all_perms Example.helpers
      (Example.red_oak "A very tall tree.") out1.2 in
  out1.2 !! Example.red_oak_file = Some (FS.File Example.red_oak_document)
  /\ out2.2 !! Example.red_oak_file
     = Some (FS.File (Calls.entry_document Example.helpers "A very tall tree."
                        "Plants of the world." "flora"))
  /\ (forall p, p <> Example.red_oak_file -> out2.2 !! p = out1.2 !! p)
  /\ dom out2.2 = dom out1.2.
Proof.
  intros out1 out2.
  destruct (second_call_overwrites_first Example.all_perms Example.helpers
              (default ∅ (Example.red_oak "A tall tree."))
              (default ∅ (Example.red_oak "A very tall tree."))
              "world" "flora" "Red Oak" "A tall tree." "A very tall tree." Example.fs0)
    as (H1 & H2 & H3 & H4 & _); [evaluate..|].
  split; [|split; [|split]].
  - etrans; [exact H1|]. evaluate.
  - etrans; [exact H2|]. evaluate.
  - exact H3.
  - exact H4.
Defined.

(** C4, a pair of calls the claim as stated covers and the handler treats
    otherwise: [Red Oak] is written with the content [A tall tree.], then
    called again with a content of one space, which is not empty and
    differs from the first.  Both calls are answered without an error; the
    second writes nothing, and the entry file still holds the first
    document, not the one built from the second content. *)
Lemma blank_second_content_keeps_first_entry :
  let out1 :=
    Creation.create_world_entry Example.all_perms Example.helpers
      (Example.red_oak "A tall tree.") Example.fs0 in
  let out2 :=
    Creation.create_world_entry Example.all_perms Example.helpers
      (Example.red_oak " ") out1.2 in
  " " <> EmptyString /\ " " <> "A tall tree."
  /\ Calls.answered out1 = true /\ Calls.answered out2 = true
  /\ out2.2 = out1.2
  /\ out2.2 !! Example.red_oak_file = Some (FS.File Example.red_oak_document)
  /\ out2.2 !! Example.red_oak_file
     <> Some (FS.File (Calls.entry_document Example.helpers " " "Plants of the world."
                         "flora")).
Proof.
  cbv zeta. do 2 (split; [discriminate|]). do 4 (split; [evaluate|]).
  intros E. vm_compute in E. discriminate E.
Qed.

(** ** Instances in the sample world *)

(** X19, an instance: the taxonomy [rocks] does not exist in the sample
    world; the error text names [Flora] and [Fauna]. *)
Lemma missing_taxonomy_in_sample_world :
  let arguments := Example.call "world" "rocks" "Granite" (Py.PStr "A hard rock.") in
  let out := Creation.create_world_entry Example.all_perms Example.helpers arguments Example.fs0 in
  let msg := Creation.missing_taxonomy_text (Py.PStr "rocks") ["Flora"; "Fauna"] in
  out = (Py.Ok (text_content msg), Example.fs0)
  /\ PyStr.occurs_in "Flora" msg /\ PyStr.occurs_in "Fauna" msg.
Proof.
  intros arguments out msg.
  destruct (missing_taxonomy_lists_taxonomies Example.all_perms Example.helpers
              (default ∅ arguments) "world" "rocks" "Granite" "A hard rock." Example.fs0)
    as (Hout & _ & _ & Hspec); [evaluate..|].
  split; [etrans; [exact Hout|evaluate]|].
  split.
  - apply (Hspec PyStr.title eq_refl "flora" (FS.File "Plants of the world.")).
    evaluate.
  - apply (Hspec PyStr.title eq_refl "fauna" (FS.File EmptyString)). evaluate.
Defined.


(** C5, an instance: the tool name [does_not_exist]. *)
Lemma unknown_tool_does_not_exist :
  Tools.handle_entry_tool Example.all_perms Example.helpers
    Example.other_tool Example.other_tool Example.other_tool Example.other_tool
    "does_not_exist" (Example.red_oak "A tall tree.") Example.fs0
  = (Py.Raise (Py.Exn Py.ValueError "Unknown entry tool: does_not_exist"), Example.fs0).
Proof.
  destruct (router_dispatches_or_rejects Example.all_perms Example.helpers
              Example.other_tool Example.other_tool Example.other_tool Example.other_tool
              "does_not_exist" (Example.red_oak "A tall tree.") Example.fs0)
    as [Hunknown _].
  destruct Hunknown as (Hraise & _ & _); [|exact Hraise].
  simpl. rewrite !not_elem_of_cons. repeat split; try discriminate. apply not_elem_of_nil.
Defined.

(** X17, an instance: a call without [taxonomy]. *)
Lemma missing_taxonomy_argument :
  let arguments : option (gmap string Py.value) :=
    Some (list_to_map [("world_directory", Py.PStr "world"); ("entry_name", Py.PStr "Red Oak")]) in
  Calls.missing_required arguments
  /\ exists msg,
      PyStr.startswith "Error" msg = true
      /\ forall fs,
          Creation.create_world_entry Example.read_only Example.helpers arguments fs
          = (Py.Ok (text_content msg), fs).
Proof.
  intros arguments. split; [evaluate|].
  apply (missing_argument_fails_before_any_access Example.read_only Example.helpers arguments).
  - evaluate.
  - exists EmptyString. evaluate.
Defined.

(** X18, an instance: a world directory that does not exist. *)
Lemma missing_world_in_sample_file_system :
  let out :=
    Creation.create_world_entry Example.all_perms Example.helpers
      (Example.call "atlantis" "flora" "Red Oak" (Py.PStr "A tall tree.")) Example.fs0 in
  out = (Py.Ok (text_content "Error: World directory /base/atlantis does not exist"),
         Example.fs0).
Proof.
  intros out.
  destruct (missing_world_fails_without_write Example.all_perms Example.helpers
              (default ∅ (Example.call "atlantis" "flora" "Red Oak" (Py.PStr "A tall tree.")))
              "atlantis" "A tall tree." Example.fs0) as (Hout & _); [evaluate..|].
  etrans; [exact Hout|]. evaluate.
Defined.

(** C10, an instance: content made of a space and a line break. *)
Lemma red_oak_whitespace_content :
  let blank := " " +:+ PyStr.nl in
  let out :=
    Creation.create_world_entry Example.all_perms Example.helpers
      (Example.red_oak blank) Example.fs0 in
  out = Creation.create_world_entry Example.all_perms Example.helpers
          (Example.red_oak EmptyString) Example.fs0
  /\ out.2 = Example.fs0.
Proof.
  intros blank out.
  destruct (whitespace_content_is_no_content Example.all_perms Example.helpers
              (default ∅ (Example.red_oak blank)) blank Example.fs0)
    as (Heq & Hfs & _); [evaluate..|].
  split; [|exact Hfs]. etrans; [exact Heq|]. evaluate.
Defined.

(** ** Frontmatter: rendering and parsing *)

Section Escaping.
Variable sp : ascii.
Hypothesis sp_not_backslash : sp <> "092"%char.
Hypothesis sp_not_n : sp <> "n"%char.
Hypothesis sp_not_newline : sp <> "010"%char.

Lemma unescape_until_escape (s rest : string) :
  ContentParsing.unescape_until sp (ContentParsing.escape sp s +:+ String sp rest)
    = Some (s, rest).
Proof.
  induction s as [|a s IH].
  - rewrite append_empty_l. simpl. by rewrite decide_True.
  - simpl ContentParsing.escape. rewrite append_assoc. unfold ContentParsing.escape_char.
    destruct (decide (a = "092"%char)) as [->|Hb].
    { rewrite !append_cons, append_empty_l. simpl.
      rewrite decide_False by done. by rewrite IH. }
    destruct (decide (a = "010"%char)) as [->|Hn].
    { rewrite !append_cons, append_empty_l. simpl.
      rewrite decide_False by done. by rewrite IH. }
    destruct (decide (a = sp)) as [->|Hs].
    { rewrite !append_cons, append_empty_l. simpl.
      rewrite (decide_False (P := "092"%char = sp)) by done.
      rewrite (decide_False (P := sp = "n"%char)) by done.
      rewrite (decide_False (P := sp = "092"%char)) by done.
      rewrite (decide_True (P := sp = sp)) by done.
      by rewrite IH. }
    rewrite !append_cons, append_empty_l. simpl.
    rewrite !decide_False by done. by rewrite IH.
Qed.

Lemma one_line_append (s1 s2 : string) :
  ContentParsing.one_line s1 = true -> ContentParsing.one_line s2 = true ->
  ContentParsing.one_line (s1 +:+ s2) = true.
Proof.
  intros H1 H2. induction s1 as [|a s1 IH]; [done|].
  rewrite append_cons. simpl in *. apply andb_prop in H1 as [-> H1]. auto.
Qed.

Lemma one_line_escape (s : string) :
  ContentParsing.one_line (ContentParsing.escape sp s) = true.
Proof.
  induction s as [|a s IH]; [done|]. simpl. apply one_line_append; [|done].
  unfold ContentParsing.escape_char. repeat case_decide; subst; simpl; try done.
  - rewrite bool_decide_eq_false_2; done.
  - rewrite bool_decide_eq_false_2; done.
Qed.

End Escaping.

Lemma parse_render_field (kv : string * string) :
  ContentParsing.parse_field (ContentParsing.render_field kv) = Some kv.
Proof.
  destruct kv as [k v]. unfold ContentParsing.parse_field, ContentParsing.render_field. simpl.
  change (ContentParsing.escape ":" k +:+ ": " +:+ PyStr.dquote
            +:+ ContentParsing.escape "034" v +:+ PyStr.dquote)
    with (ContentParsing.escape ":" k
            +:+ String ":"%char
                  (String " "%char
                     (String "034"%char
                        (ContentParsing.escape "034" v +:+ String "034"%char EmptyString)))).
  rewrite unescape_until_escape by done.
  by rewrite unescape_until_escape.
Qed.

Lemma render_field_one_line (kv : string * string) :
  ContentParsing.one_line (ContentParsing.render_field kv) = true.
Proof.
  unfold ContentParsing.render_field.
  repeat (apply one_line_append; [try done|]); try done; by apply one_line_escape.
Qed.

Lemma render_field_not_fence (kv : string * string) :
  ContentParsing.render_field kv <> ContentParsing.fence.
Proof.
  intros Heq. pose proof (parse_render_field kv) as Hp. rewrite Heq in Hp. done.
Qed.

Lemma split_nonempty (sep : ascii) (s : string) : PyStr.split sep s <> [].
Proof. destruct s as [|a s]; simpl; [done|]. case_decide; [done|]. by destruct (PyStr.split sep s). Qed.

(** The first line of a text is its first piece. *)
Lemma split_line (l rest : string) :
  ContentParsing.one_line l = true ->
  PyStr.split "010"%char (l +:+ PyStr.nl +:+ rest) = l :: PyStr.split "010"%char rest.
Proof.
  intros Hl. induction l as [|a l IH].
  - done.
  - rewrite append_cons. simpl in *. apply andb_prop in Hl as [Ha Hl].
    apply negb_true_iff, bool_decide_eq_false in Ha.
    rewrite decide_False by done. by rewrite IH.
Qed.

(** Splitting at the line breaks and joining again gives the text back. *)
Lemma join_split (s : string) : PyStr.join PyStr.nl (PyStr.split "010"%char s) = s.
Proof.
  induction s as [|a s IH]; [done|]. simpl. case_decide as Ha.
  - subst a. pose proof (split_nonempty "010"%char s) as Hne.
    destruct (PyStr.split "010"%char s) as [|w ws]; [done|].
    change (PyStr.join PyStr.nl (EmptyString :: w :: ws))
      with (EmptyString +:+ PyStr.nl +:+ PyStr.join PyStr.nl (w :: ws)).
    by rewrite IH.
  - destruct (PyStr.split "010"%char s) as [|w ws] eqn:Hs.
    { by destruct (split_nonempty "010"%char s). }
    destruct ws as [|w' ws]; simpl in *; [by rewrite <- IH|].
    rewrite <- IH. by rewrite append_cons.
Qed.

Lemma split_rendered_fields (f : frontmatter) (rest : string) :
  PyStr.split "010"%char
    (fold_right (fun kv acc => ContentParsing.render_field kv +:+ PyStr.nl +:+ acc)
       EmptyString f +:+ rest)
  = (ContentParsing.render_field <$> f) ++ PyStr.split "010"%char rest.
Proof.
  induction f as [|kv f IH]; [done|]. simpl fold_right. rewrite !append_assoc.
  rewrite split_line by apply render_field_one_line. by rewrite IH.
Qed.

Lemma span_fence_rendered (f : frontmatter) (after : list string) :
  ContentParsing.span_fence
    ((ContentParsing.render_field <$> f) ++ ContentParsing.fence :: after)
  = Some (ContentParsing.render_field <$> f, after).
Proof.
  induction f as [|kv f IH].
  - done.
  - rewrite fmap_cons. cbn [ContentParsing.span_fence app].
    rewrite decide_False by apply render_field_not_fence. by rewrite IH.
Qed.

Lemma parse_rendered_fields (f : frontmatter) :
  ContentParsing.parse_fields (ContentParsing.render_field <$> f) = Some f.
Proof.
  induction f as [|kv f IH]; [done|]. rewrite fmap_cons.
  cbn [ContentParsing.parse_fields]. by rewrite parse_render_field, IH.
Qed.

Lemma dict_set_fresh (d : frontmatter) (k v : string) :
  k ∉ d.*1 -> dict_set d k v = d ++ [(k, v)].
Proof.
  induction d as [|[k' v'] d IH]; [done|]. simpl.
  intros [Hk Hd]%not_elem_of_cons. rewrite decide_False by done. by rewrite IH.
Qed.

(** A sequence of fields with distinct keys is the mapping it denotes. *)
Lemma dict_of_fields_distinct (f : frontmatter) :
  NoDup f.*1 -> ContentParsing.dict_of_fields f = f.
Proof.
  unfold ContentParsing.dict_of_fields.
  assert (forall acc, NoDup ((acc ++ f).*1) ->
            fold_left (fun d kv => dict_set d kv.1 kv.2) f acc = acc ++ f) as Hgen.
  { induction f as [|[k v] f IH]; intros acc Hnd; simpl.
    - by rewrite app_nil_r.
    - rewrite dict_set_fresh.
      + rewrite IH; rewrite <- app_assoc; [done|]. exact Hnd.
      + rewrite fmap_app in Hnd. apply NoDup_app in Hnd as (_ & Hdisj & _).
        intros Hin. apply (Hdisj k Hin). simpl. apply elem_of_cons. by left. }
  intros Hnd. by apply (Hgen []).
Qed.

(** Parsing a rendered header block in front of any text. *)
Lemma split_rendered_frontmatter (f : frontmatter) (c : string) :
  NoDup f.*1 ->
  ContentParsing.split_frontmatter (ContentParsing.render_frontmatter f +:+ c) = Some (f, c).
Proof.
  intros Hnd. unfold ContentParsing.split_frontmatter, ContentParsing.render_frontmatter.
  rewrite !append_assoc.
  rewrite (split_line ContentParsing.fence) by done.
  rewrite split_rendered_fields.
  rewrite (split_line ContentParsing.fence) by done.
  change (PyStr.nl +:+ c) with (EmptyString +:+ PyStr.nl +:+ c).
  rewrite (split_line EmptyString) by done.
  rewrite decide_True by done.
  rewrite span_fence_rendered, parse_rendered_fields.
  by rewrite dict_of_fields_distinct, join_split.
Qed.

(** C9.  For a mapping [f] (distinct keys) and content [c]: when [c] has no
    header block of its own, parsing [add_frontmatter_to_content c f] gives
    back exactly [f] and [c]; when [c] starts with a header block,
    [add_frontmatter_to_content] replaces that block by the block of [f] in
    front of the body of [c], so the result has the one header [f]. *)
Theorem frontmatter_round_trip (c : string) (f : frontmatter) :
  NoDup f.*1 ->
  (ContentParsing.has_frontmatter c = false ->
     ContentParsing.extract_frontmatter (ContentParsing.add_frontmatter_to_content c f)
       = (f, c))
  /\ (forall f0 body,
        ContentParsing.extract_frontmatter c = (f0, body) ->
        ContentParsing.has_frontmatter c = true ->
        ContentParsing.add_frontmatter_to_content c f
          = ContentParsing.render_frontmatter f +:+ body
        /\ ContentParsing.extract_frontmatter (ContentParsing.add_frontmatter_to_content c f)
           = (f, body)).
Proof.
  intros Hnd. unfold ContentParsing.has_frontmatter. split.
  - intros Hc. destruct (ContentParsing.split_frontmatter c) eqn:Hsplit; [done|].
    rewrite add_frontmatter_without_header by done.
    unfold ContentParsing.extract_frontmatter. by rewrite split_rendered_frontmatter.
  - intros f0 body Hext _. unfold ContentParsing.add_frontmatter_to_content.
    rewrite Hext. simpl. split; [done|].
    unfold ContentParsing.extract_frontmatter. by rewrite split_rendered_frontmatter.
Qed.

(** C9, an instance: the frontmatter of the entry [Red Oak]. *)
Lemma red_oak_frontmatter_round_trip :
  let f := [("description", "A tall tree."); ("article_type", "full")] in
  let c := "A tall tree." in
  ContentParsing.has_frontmatter c = false
  /\ ContentParsing.extract_frontmatter (ContentParsing.add_frontmatter_to_content c f)
     = (f, c)
  /\ ContentParsing.add_frontmatter_to_content
       (ContentParsing.add_frontmatter_to_content c f) [("article_type", "stub")]
     = ContentParsing.render_frontmatter [("article_type", "stub")] +:+ c.
Proof.
  intros f c.
  destruct (frontmatter_round_trip c f) as [Hrt _].
  { apply NoDup_cons. split; [by intros [=]%list_elem_of_singleton|]. apply NoDup_singleton. }
  split; [evaluate|]. split; [apply Hrt; evaluate|].
  destruct (frontmatter_round_trip (ContentParsing.add_frontmatter_to_content c f)
              [("article_type", "stub")] (NoDup_singleton _)) as [_ Hrep].
  apply (Hrep f c); [apply Hrt|]; evaluate.
Defined.

(** * Further properties of the handler *)

(** ** Every outcome of the guarded block *)

Section Outcomes.
Variable pm : FS.perms.
Variable H : Helpers.

Local Abbreviation cwe := (Creation.create_world_entry pm H).
Local Abbreviation cwe_try := (Creation.create_world_entry_try pm H).

Lemma create_entry_file_outcome
    (wp : FS.path) (ct ce : string) (en : Py.value) (c : string) (tax : Py.value)
    (tctx : string) (fs : FS.state) :
  Tree.reached pm fs (Creation._create_entry_file pm H wp ct ce en c tax tctx fs).2.
Proof.
  unfold Creation._create_entry_file, Comp.bind, Comp.update, Comp.lift, Comp.ret.
  destruct (FS.mkdir_parents pm (Creation.entry_dir wp ct) fs) as [r fs1] eqn:Hmk.
  right. exists wp, ct, ce, r, fs1. split; [done|].
  destruct r as [[]|e]; [|by left].
  destruct (Py.title tax) as [titled|e]; [|by left]. simpl.
  destruct (FS.write_text pm _ _ fs1) as [fs2|e] eqn:Hwr; [|by left].
  right. by eexists.
Qed.

Lemma create_world_entry_try_outcome (wd tax en ec : Py.value) (fs : FS.state) :
  (forall r, (cwe_try wd tax en ec fs).1 = Py.Ok r -> exists t, r = text_content t)
  /\ Tree.reached pm fs (cwe_try wd tax en ec fs).2.
Proof.
  unfold Creation.create_world_entry_try.
  unfold Comp.bind, Comp.lift, Comp.reads, Comp.as_str, Comp.ret,
    Creation._generate_optimized_entry_image.
  destruct (resolve_world_path H wd) as [wp|e]; [|by split; [|left]].
  destruct (FS.exists_ fs wp); simpl; [|split; [intros r [= <-]; by eexists|by left]].
  destruct (clean_name H tax) as [ct|e]; [|by split; [|left]].
  destruct (clean_name H en) as [ce|e]; [|by split; [|left]].
  destruct (FS.exists_ fs _); simpl;
    [|split; [intros r [= <-]; by eexists|by left]].
  destruct ec as [c| |cls b txt]; [|by split; [|left]..].
  destruct (PyStr.nonempty (PyStr.strip c));
    [|split; [intros r [= <-]; by eexists|by left]].
  pose proof (create_entry_file_outcome wp ct ce en c tax
                (extract_taxonomy_context H fs wp ct) fs) as Hreached.
  destruct (Creation._create_entry_file pm H wp ct ce en c tax _ fs) as [[f|e] fs2];
    [|by split].
  destruct (FS.relative_to f wp) as [rel|e]; simpl; [|by split].
  split; [|done]. intros r [= <-]. by eexists.
Qed.

(** The handler as a whole. *)
Lemma create_world_entry_outcome (arguments : option (gmap string Py.value)) (fs : FS.state) :
  (forall r, (cwe arguments fs).1 = Py.Ok r -> exists t, r = text_content t)
  /\ Tree.reached pm fs (cwe arguments fs).2.
Proof.
  unfold Creation.create_world_entry.
  destruct arguments as [d|]; [|split; [intros r [= <-]; by eexists|by left]].
  destruct (bool_decide (d = ∅)); [split; [intros r [= <-]; by eexists|by left]|].
  unfold Comp.bind, Comp.lift.
  destruct (Py.strip _) as [stripped|e]; [|by split; [|left]].
  destruct (Py.all _); simpl; [|split; [intros r [= <-]; by eexists|by left]].
  unfold Comp.try_except.
  destruct (create_world_entry_try_outcome
              (Py.get d "world_directory" (Py.PStr EmptyString))
              (Py.get d "taxonomy" (Py.PStr EmptyString))
              (Py.get d "entry_name" (Py.PStr EmptyString))
              (Py.get d "entry_content" (Py.PStr EmptyString)) fs) as [Hshape Hreached].
  destruct (cwe_try _ _ _ _ fs) as [[r|e] fs']; simpl in *.
  - split; [|done]. intros r' [= <-]. by apply Hshape.
  - split; [|done]. intros r' [= <-]. by eexists.
Qed.

End Outcomes.

(** ** What the file-system operations keep *)

Section Keeping.
Variable pm : FS.perms.

Lemma os_mkdir_fresh (p : FS.path) (fs fs' : FS.state) :
  FS.os_mkdir pm p fs = Py.Ok fs' ->
  fs !! p = None /\ fs !! FS.parent p = Some FS.Dir /\ fs' = <[p := FS.Dir]> fs.
Proof.
  unfold FS.os_mkdir. destruct (FS.through_file fs p); [done|].
  destruct (fs !! p); [done|].
  destruct (fs !! FS.parent p) as [[|?]|]; try done.
  destruct (FS.writable pm _); [|done]. by intros [= <-].
Qed.

Lemma mkdir_exist_ok_cases (p : FS.path) (fs fs' : FS.state) :
  FS.mkdir_exist_ok pm p fs = Py.Ok fs' -> fs' = fs \/ FS.os_mkdir pm p fs = Py.Ok fs'.
Proof.
  unfold FS.mkdir_exist_ok. destruct (FS.os_mkdir pm p fs) as [fs1|e]; [by right|].
  destruct (FS.is_file_not_found e); [done|]. destruct (FS.is_dir fs p); [|done].
  intros [= <-]. by left.
Qed.

(** [mkdir] only adds. *)
Lemma mkdir_parents_subseteq (p : FS.path) (fs : FS.state) :
  fs ⊆ (FS.mkdir_parents pm p fs).2.
Proof.
  assert (forall q fs0 fs1, FS.os_mkdir pm q fs0 = Py.Ok fs1 -> fs0 ⊆ fs1) as Hos.
  { intros q fs0 fs1 (Hq & _ & ->)%os_mkdir_fresh. by apply insert_subseteq. }
  revert fs. induction p as [|x q IH]; intros fs; simpl.
  - destruct (FS.os_mkdir pm [] fs) as [fs1|e] eqn:Hmk; [by eapply Hos|].
    destruct (FS.is_file_not_found e); [done|]. by destruct (FS.is_dir fs []).
  - destruct (FS.os_mkdir pm (x :: q) fs) as [fs1|e] eqn:Hmk; [by eapply Hos|].
    destruct (FS.is_file_not_found e); [|by destruct (FS.is_dir fs (x :: q))].
    specialize (IH fs).
    destruct (FS.mkdir_parents pm q fs) as [[[]|e'] fs1]; [|done].
    destruct (FS.mkdir_exist_ok pm (x :: q) fs1) as [fs2|e'] eqn:Hlast; [|done].
    apply mkdir_exist_ok_cases in Hlast as [->|Hmk2]; [done|].
    etrans; [exact IH|by eapply Hos].
Qed.

Lemma insert_dir_well_formed (p : FS.path) (fs : FS.state) :
  Tree.well_formed fs -> fs !! p = None -> fs !! FS.parent p = Some FS.Dir ->
  forall nd, Tree.well_formed (<[p := nd]> fs).
Proof.
  intros Hwf Hp Hparent nd y r nd' Hlook.
  assert (forall q, fs !! q = Some FS.Dir -> <[p := nd]> fs !! q = Some FS.Dir) as Hkeep.
  { intros q Hq. rewrite lookup_insert_ne; [done|]. intros ->. congruence. }
  destruct (decide (p = y :: r)) as [->|Hne].
  - by apply Hkeep.
  - rewrite lookup_insert_ne in Hlook by done. eapply Hkeep, Hwf. exact Hlook.
Qed.

Lemma os_mkdir_well_formed (p : FS.path) (fs fs' : FS.state) :
  Tree.well_formed fs -> FS.os_mkdir pm p fs = Py.Ok fs' -> Tree.well_formed fs'.
Proof.
  intros Hwf (Hp & Hparent & ->)%os_mkdir_fresh. by apply insert_dir_well_formed.
Qed.

Lemma mkdir_parents_well_formed (p : FS.path) (fs : FS.state) :
  Tree.well_formed fs -> Tree.well_formed (FS.mkdir_parents pm p fs).2.
Proof.
  revert fs. induction p as [|x q IH]; intros fs Hwf; simpl.
  - destruct (FS.os_mkdir pm [] fs) as [fs1|e] eqn:Hmk; [by eapply os_mkdir_well_formed|].
    destruct (FS.is_file_not_found e); [done|]. by destruct (FS.is_dir fs []).
  - destruct (FS.os_mkdir pm (x :: q) fs) as [fs1|e] eqn:Hmk;
      [by eapply os_mkdir_well_formed|].
    destruct (FS.is_file_not_found e); [|by destruct (FS.is_dir fs (x :: q))].
    specialize (IH fs Hwf).
    destruct (FS.mkdir_parents pm q fs) as [[[]|e'] fs1]; [|done].
    destruct (FS.mkdir_exist_ok pm (x :: q) fs1) as [fs2|e'] eqn:Hlast; [|done].
    apply mkdir_exist_ok_cases in Hlast as [->|Hmk2]; [done|].
    exact (os_mkdir_well_formed _ fs1 fs2 IH Hmk2).
Qed.

(** A successful write replaces a regular file or makes a new one in an
    existing directory. *)
Lemma write_text_cases (p : FS.path) (c : string) (fs fs' : FS.state) :
  FS.write_text pm p c fs = Py.Ok fs' ->
  fs' = <[p := FS.File c]> fs
  /\ ((exists old, fs !! p = Some (FS.File old))
      \/ (fs !! p = None /\ fs !! FS.parent p = Some FS.Dir)).
Proof.
  unfold FS.write_text. destruct (FS.through_file fs p); [done|].
  destruct (fs !! p) as [[|old]|]; [done| |].
  - destruct (FS.writable pm p); [|done]. intros [= <-]. split; [done|]. left. by eexists.
  - destruct (fs !! FS.parent p) as [[|?]|]; try done.
    destruct (FS.writable pm _); [|done]. intros [= <-]. split; [done|]. by right.
Qed.

Lemma write_text_well_formed (p : FS.path) (c : string) (fs fs' : FS.state) :
  Tree.well_formed fs -> FS.write_text pm p c fs = Py.Ok fs' -> Tree.well_formed fs'.
Proof.
  intros Hwf (-> & [[old Hold]|[Hp Hparent]])%write_text_cases.
  - intros y r nd Hlook.
    assert (forall q, fs !! q = Some FS.Dir -> <[p := FS.File c]> fs !! q = Some FS.Dir)
      as Hkeep.
    { intros q Hq. rewrite lookup_insert_ne; [done|]. intros ->. congruence. }
    destruct (decide (p = y :: r)) as [->|Hne].
    + eapply Hkeep, Hwf. exact Hold.
    + rewrite lookup_insert_ne in Hlook by done. eapply Hkeep, Hwf. exact Hlook.
  - by apply insert_dir_well_formed.
Qed.

(** From any state the handler can reach, nothing of the earlier state is
    lost. *)
Lemma reached_kept (fs fs' : FS.state) :
  Tree.reached pm fs fs' -> exists file, Tree.kept_except file fs fs'.
Proof.
  intros [->|(wp & ct & ce & r & fs1 & Hrun & Hrest)].
  { exists []. split; [done|]. split; [done|]. intros c Hc. by exists c. }
  pose proof (mkdir_parents_subseteq (Creation.entry_dir wp ct) fs) as Hmk.
  rewrite Hrun in Hmk. simpl in Hmk.
  destruct Hrest as [->|[doc (-> & Hold)%write_text_cases]].
  - exists []. split; [|split].
    + intros p nd _ Hp. by eapply lookup_weaken.
    + intros Hp. by eapply lookup_weaken.
    + intros c Hc. exists c. by eapply lookup_weaken.
  - exists (Creation.entry_file_path wp ct ce). split; [|split].
    + intros p nd Hne Hp. rewrite lookup_insert_ne by done. by eapply lookup_weaken.
    + intros Hdir. eapply lookup_weaken in Hdir; [|exact Hmk].
      destruct Hold as [[old Hold]|[Hnone _]]; congruence.
    + intros c _. exists doc. apply lookup_insert_eq.
Qed.

Lemma reached_well_formed (fs fs' : FS.state) :
  Tree.well_formed fs -> Tree.reached pm fs fs' -> Tree.well_formed fs'.
Proof.
  intros Hwf [->|(wp & ct & ce & r & fs1 & Hrun & Hrest)]; [done|].
  pose proof (mkdir_parents_well_formed (Creation.entry_dir wp ct) fs Hwf) as Hmk.
  rewrite Hrun in Hmk. simpl in Hmk.
  destruct Hrest as [->|[doc Hwr]]; [done|]. by eapply write_text_well_formed.
Qed.

End Keeping.

(** ** The handler never raises on typed content, never loses a path *)

Section Guarantees.
Variable pm : FS.perms.
Variable H : Helpers.

Local Abbreviation cwe := (Creation.create_world_entry pm H).

(** X1.  When [entry_content] is a string or is left out, the handler does
    not raise, whatever the other arguments, the collaborators, the
    permissions and the file system are: it returns exactly one text
    block. *)
Theorem typed_content_always_answers
    (arguments : option (gmap string Py.value)) (fs : FS.state) :
  Calls.content_typed arguments ->
  exists t fs', cwe arguments fs = (Py.Ok (text_content t), fs').
Proof.
  intros Htyped.
  destruct (create_world_entry_returns pm H arguments fs Htyped) as (r & fs' & Hrun).
  destruct (create_world_entry_outcome pm H arguments fs) as [Hshape _].
  destruct (Hshape r) as [t ->]; [by rewrite Hrun|]. by exists t, fs'.
Qed.

(** X2.  When [entry_content] is given and is not a string, the handler
    raises the [AttributeError] of its [strip] call and touches nothing,
    whatever else the call holds: the check for missing arguments comes
    after. *)
Theorem untyped_content_raises (d : gmap string Py.value) (v : Py.value) (fs : FS.state) :
  Calls.arg d "entry_content" = v -> (forall s, v <> Py.PStr s) ->
  cwe (Some d) fs = (Py.Raise (Py.attribute_error v "strip"), fs).
Proof.
  intros Hv Hns. unfold Creation.create_world_entry.
  rewrite bool_decide_eq_false_2.
  - unfold Calls.arg in Hv. rewrite Hv. by destruct v; [destruct (Hns s)|..].
  - intros ->. unfold Calls.arg, Py.get in Hv. rewrite lookup_empty in Hv.
    by destruct (Hns EmptyString).
Qed.

(** X3.  The handler removes no path and changes no directory; of the
    regular files it changes the content of at most one.  This holds for
    every call, answered, failed or raised. *)
Theorem handler_keeps_what_exists
    (arguments : option (gmap string Py.value)) (fs : FS.state) :
  exists file, Tree.kept_except file fs (cwe arguments fs).2.
Proof.
  apply (reached_kept pm). apply create_world_entry_outcome.
Qed.

(** X4.  The handler keeps the file tree well formed: when every existing
    path lies in an existing directory before the call, so it does after
    it. *)
Theorem handler_keeps_tree_well_formed
    (arguments : option (gmap string Py.value)) (fs : FS.state) :
  Tree.well_formed fs -> Tree.well_formed (cwe arguments fs).2.
Proof.
  intros Hwf. apply (reached_well_formed pm fs); [done|]. apply create_world_entry_outcome.
Qed.

End Guarantees.

(** X1, an instance: a number as [world_directory]; the [TypeError] of the
    resolver comes back as an error text. *)
Lemma numeric_world_is_answered :
  Creation.create_world_entry Example.all_perms Example.helpers Sample.numeric_world
    Example.fs0
  = (Py.Ok (text_content
              "Error creating world entry: expected str, bytes or os.PathLike object, not int"),
     Example.fs0).
Proof.
  destruct (typed_content_always_answers Example.all_perms Example.helpers
              Sample.numeric_world Example.fs0) as (t & fs' & Hrun).
  { exists "A tall tree.". evaluate. }
  etrans; [exact Hrun|]. symmetry. etrans; [|exact Hrun]. symmetry. evaluate.
Defined.

(** X2, an instance: a call that holds only a number as [entry_content]. *)
Lemma numeric_content_raises :
  Creation.create_world_entry Example.all_perms Example.helpers
    (Some Sample.numeric_content) Example.fs0
  = (Py.Raise (Py.Exn Py.AttributeError "'int' object has no attribute 'strip'"),
     Example.fs0).
Proof.
  etrans.
  { apply (untyped_content_raises Example.all_perms Example.helpers Sample.numeric_content
             (Py.PObj "int" true "5") Example.fs0); [evaluate|done]. }
  evaluate.
Defined.

Lemma sample_world_well_formed : Tree.well_formed Example.fs0.
Proof.
  intros x p nd Hl. unfold Example.fs0, Example.world, Example.base in Hl.
  apply elem_of_list_to_map_2 in Hl.
  repeat (apply elem_of_cons in Hl as [Hl|Hl]; [simplify_eq; evaluate|]).
  by apply elem_of_nil in Hl.
Qed.

(** X4, an instance: the sample world after the entry [Red Oak] is
    written. *)
Lemma sample_world_stays_well_formed :
  Tree.well_formed
    (Creation.create_world_entry Example.all_perms Example.helpers
       (Example.red_oak "A tall tree.") Example.fs0).2.
Proof.
  apply (handler_keeps_tree_well_formed Example.all_perms Example.helpers
           (Example.red_oak "A tall tree.") Example.fs0).
  exact sample_world_well_formed.
Defined.

(** ** Failed writes, reports, repeated calls *)

Section Repetition.
Variable pm : FS.perms.
Variable H : Helpers.

Local Abbreviation cwe := (Creation.create_world_entry pm H).

(** X5.  There is no rollback.  For a call with content on an existing
    world and taxonomy: when [mkdir(parents=True)] of the entry directory
    fails, the handler returns the text of the exception after [Error
    creating world entry: ] and the file system is the one the failed
    [mkdir] left, with all that was there before and the parent
    directories it made before it failed; when the directory is made and
    the write is refused, it returns that text and the directories it made
    stay. *)
Theorem failed_write_is_reported_not_undone
    (d : gmap string Py.value) (w t n c : string) (fs : FS.state) :
  Calls.names_are d w t n -> Calls.content_is d c ->
  w <> EmptyString -> t <> EmptyString -> n <> EmptyString ->
  PyStr.nonempty (PyStr.strip c) = true ->
  FS.exists_ fs (Calls.resolved H w) = true ->
  FS.exists_ fs (Creation.taxonomy_overview_path (Calls.resolved H w) (Calls.slug H t)) = true ->
  let wp := Calls.resolved H w in
  let ct := Calls.slug H t in
  let file := Creation.entry_file_path wp ct (Calls.slug H n) in
  let doc := Calls.entry_document H c (extract_taxonomy_context H fs wp ct) t in
  (forall e fs1,
     FS.mkdir_parents pm (Creation.entry_dir wp ct) fs = (Py.Raise e, fs1) ->
     cwe (Some d) fs = (Py.Ok (text_content (Creation.failure_text e)), fs1)
     /\ fs ⊆ fs1)
  /\ (forall fs1 e,
        FS.mkdir_parents pm (Creation.entry_dir wp ct) fs = (Py.Ok tt, fs1) ->
        FS.write_text pm file doc fs1 = Py.Raise e ->
        cwe (Some d) fs = (Py.Ok (text_content (Creation.failure_text e)), fs1)).
Proof.
  intros Hnames Hc Hw Ht Hn Hcontent Hworld Hover wp ct file doc.
  assert (cwe (Some d) fs =
          match Creation._create_entry_file pm H wp ct (Calls.slug H n) (Py.PStr n) c
                  (Py.PStr t) (extract_taxonomy_context H fs wp ct) fs with
          | (Py.Ok f, fs2) =>
              match FS.relative_to f wp with
              | Py.Ok rel =>
                  (Py.Ok (text_content
                            (Creation.created_text (Py.PStr n)
                               (Calls.world_context pm H fs wp ct (Py.PStr t)) rel
                               (extract_taxonomy_context H fs wp ct) EmptyString
                               (generate_stub_analysis H fs2 wp (Py.PStr n) (Py.PStr t) c))),
                   fs2)
              | Py.Raise e => (Py.Ok (text_content (Creation.failure_text e)), fs2)
              end
          | (Py.Raise e, fs2) => (Py.Ok (text_content (Creation.failure_text e)), fs2)
          end) as Hrun.
  { rewrite (create_world_entry_strings pm H d w t n c fs) by done.
    rewrite create_world_entry_try_strings. simpl.
    rewrite Hworld, Hover, Hcontent. subst wp ct.
    destruct (Creation._create_entry_file _ _ _ _ _ _ _ _ _ _) as [[f|e] fs2]; [|done].
    by destruct (FS.relative_to f _). }
  rewrite Hrun, create_entry_file_stages. split.
  - intros e fs1 Hmk. pose proof (mkdir_parents_subseteq pm (Creation.entry_dir wp ct) fs) as Hsub.
    rewrite Hmk in *. by split.
  - intros fs1 e -> Hwr. fold file doc. by rewrite Hwr.
Qed.

(** X6.  The creation report names the file: for a call answered without
    an error whose slugs are plain path components, the response contains
    [Saved to: entries/<taxonomy-slug>/<entry-slug>.md], and afterwards
    that path under the world root is a regular file and its directory a
    directory. *)
Theorem creation_report_names_the_file
    (d : gmap string Py.value) (w t n c : string) (fs : FS.state) :
  Calls.names_are d w t n -> Calls.content_is d c ->
  PyStr.nonempty (PyStr.strip c) = true ->
  Calls.answered (cwe (Some d) fs) = true ->
  FS.plain (Calls.slug H t) = true -> FS.no_slash (Calls.slug H n) = true ->
  let wp := Calls.resolved H w in
  let ct := Calls.slug H t in
  let ce := Calls.slug H n in
  let out := cwe (Some d) fs in
  exists txt doc,
    out.1 = Py.Ok (text_content txt)
    /\ PyStr.occurs_in ("Saved to: entries/" +:+ ct +:+ "/" +:+ ce +:+ ".md") txt
    /\ out.2 !! ((ce +:+ ".md") :: ct :: "entries" :: wp) = Some (FS.File doc)
    /\ out.2 !! (ct :: "entries" :: wp) = Some FS.Dir.
Proof.
  intros Hnames Hc Hcontent Hans Hct Hce wp ct ce out.
  destruct (answered_inv _ Hans) as (r & Hrun & Hok).
  destruct (created_inv pm H d w t n c fs _ r Hnames Hc Hcontent Hrun Hok)
    as (_ & _ & fs1 & rel & Hmk & Hwr & Hrel & Hr).
  fold wp ct ce out in Hmk, Hwr, Hrel, Hr, Hrun.
  destruct (entry_file_path_plain wp ct ce Hct Hce) as [Hpath Hrelative].
  rewrite Hrelative in Hrel. injection Hrel as <-.
  apply mkdir_parents_dir in Hmk.
  apply write_text_ok in Hwr as [Hfs' Hnd].
  rewrite Hpath in Hfs', Hnd.
  assert (Creation.entry_dir wp ct = ct :: "entries" :: wp) as Hdir.
  { unfold Creation.entry_dir. rewrite (div_plain wp "entries") by done. by apply div_plain. }
  rewrite Hdir in Hmk.
  eexists _, _. split; [by rewrite Hrun, Hr|]. split; [|split].
  - unfold Creation.created_text.
    do 14 apply occurs_in_app_l.
    rewrite <- (append_assoc "Saved to: "). apply occurs_in_app_r.
    exists EmptyString, EmptyString. rewrite append_empty_r. reflexivity.
  - rewrite Hfs'. apply lookup_insert_eq.
  - rewrite Hfs', lookup_insert_ne; [done|]. intros Heq. rewrite <- Heq in Hmk. done.
Qed.

(** X7.  Entries are kept by slug, not by name.  Two calls on the same
    world whose taxonomies have the same slug and whose entry names have
    the same slug write the same file: after the second call it holds the
    second document, with the footer of the second taxonomy name, and no
    path has been added. *)
Theorem same_slugs_share_one_file
    (d1 d2 : gmap string Py.value) (w t1 t2 n1 n2 c1 c2 : string) (fs0 : FS.state) :
  Calls.names_are d1 w t1 n1 -> Calls.names_are d2 w t2 n2 ->
  Calls.slug H t1 = Calls.slug H t2 -> Calls.slug H n1 = Calls.slug H n2 ->
  Calls.content_is d1 c1 -> Calls.content_is d2 c2 ->
  PyStr.nonempty (PyStr.strip c1) = true -> PyStr.nonempty (PyStr.strip c2) = true ->
  let out1 := cwe (Some d1) fs0 in
  let out2 := cwe (Some d2) out1.2 in
  Calls.answered out1 = true -> Calls.answered out2 = true ->
  let wp := Calls.resolved H w in
  let ct := Calls.slug H t1 in
  let file := Creation.entry_file_path wp ct (Calls.slug H n1) in
  out1.2 !! file
    = Some (FS.File (Calls.entry_document H c1 (extract_taxonomy_context H fs0 wp ct) t1))
  /\ out2.2 !! file
     = Some (FS.File (Calls.entry_document H c2 (extract_taxonomy_context H out1.2 wp ct) t2))
  /\ dom out2.2 = dom out1.2.
Proof.
  intros Hn1 Hn2 Ht Hn Hc1 Hc2 Hs1 Hs2 out1 out2 Ha1 Ha2 wp ct file.
  destruct (written_document pm H d1 w t1 n1 c1 fs0 Hn1 Hc1 Hs1 Ha1)
    as (fs1 & _ & Hmk1 & Hnd1 & Hout1 & _).
  destruct (written_document pm H d2 w t2 n2 c2 out1.2 Hn2 Hc2 Hs2 Ha2)
    as (fs2 & _ & Hmk2 & _ & Hout2 & _).
  rewrite <- Ht in Hmk2. rewrite <- Ht, <- Hn in Hout2.
  fold wp ct file out1 in Hmk1, Hnd1, Hout1, Hmk2, Hout2. fold out2 in Hout2.
  apply mkdir_parents_dir in Hmk1.
  assert (file <> Creation.entry_dir wp ct) as Hne by congruence.
  assert (out1.2 !! Creation.entry_dir wp ct = Some FS.Dir) as Hdir.
  { by rewrite Hout1, lookup_insert_ne. }
  rewrite (mkdir_parents_existing pm _ _ Hdir) in Hmk2. injection Hmk2 as <-.
  assert (out1.2 !! file
          = Some (FS.File (Calls.entry_document H c1
                             (extract_taxonomy_context H fs0 wp ct) t1))) as Hfile1.
  { by rewrite Hout1, lookup_insert_eq. }
  split; [done|]. split; [rewrite Hout2; apply lookup_insert_eq|].
  rewrite Hout2, dom_insert_L. apply (elem_of_dom_2 (D := gset (list string))) in Hfile1.
  set_solver.
Qed.

(** X8.  Only four arguments matter: two non-empty argument mappings that
    agree on [world_directory], [taxonomy], [entry_name] and
    [entry_content] get the same outcome. *)
Theorem only_four_arguments_matter (d d' : gmap string Py.value) (fs : FS.state) :
  d <> ∅ -> d' <> ∅ ->
  Calls.arg d "world_directory" = Calls.arg d' "world_directory" ->
  Calls.arg d "taxonomy" = Calls.arg d' "taxonomy" ->
  Calls.arg d "entry_name" = Calls.arg d' "entry_name" ->
  Calls.arg d "entry_content" = Calls.arg d' "entry_content" ->
  cwe (Some d) fs = cwe (Some d') fs.
Proof.
  intros Hd Hd' Hw Ht Hn Hc. unfold Creation.create_world_entry.
  rewrite !bool_decide_eq_false_2 by done.
  unfold Calls.arg in *. by rewrite Hw, Ht, Hn, Hc.
Qed.

(** X9.  Repeating a call changes nothing more: when a call with content
    is answered, and the same call is made again and answered, and the
    taxonomy context reads the same, the file system after the second call
    is the one after the first. *)
Theorem repeated_call_changes_nothing
    (d : gmap string Py.value) (w t n c : string) (fs0 : FS.state) :
  Calls.names_are d w t n -> Calls.content_is d c ->
  PyStr.nonempty (PyStr.strip c) = true ->
  let out1 := cwe (Some d) fs0 in
  let out2 := cwe (Some d) out1.2 in
  Calls.answered out1 = true -> Calls.answered out2 = true ->
  extract_taxonomy_context H out1.2 (Calls.resolved H w) (Calls.slug H t)
    = extract_taxonomy_context H fs0 (Calls.resolved H w) (Calls.slug H t) ->
  out2.2 = out1.2.
Proof.
  intros Hnames Hc Hs out1 out2 Ha1 Ha2 Hctx.
  destruct (written_document pm H d w t n c fs0 Hnames Hc Hs Ha1)
    as (fs1 & _ & Hmk1 & Hnd1 & Hout1 & _).
  destruct (written_document pm H d w t n c out1.2 Hnames Hc Hs Ha2)
    as (fs2 & _ & Hmk2 & _ & Hout2 & _).
  fold out1 in Hout1, Hmk2, Hout2. fold out2 in Hout2.
  apply mkdir_parents_dir in Hmk1.
  assert (out1.2 !! Creation.entry_dir (Calls.resolved H w) (Calls.slug H t) = Some FS.Dir)
    as Hdir.
  { rewrite Hout1, lookup_insert_ne; [done|congruence]. }
  rewrite (mkdir_parents_existing pm _ _ Hdir) in Hmk2. injection Hmk2 as <-.
  rewrite Hout2, Hctx. apply insert_id. rewrite Hout1. apply lookup_insert_eq.
Qed.

End Repetition.

(** ** The overview excerpt *)

Lemma take_length_le (n : nat) (s : string) : String.length (PyStr.take n s) <= n.
Proof.
  revert s. induction n as [|n IH]; intros [|a s]; cbn [PyStr.take String.length]; try lia.
  specialize (IH s). lia.
Qed.

Lemma take_whole (n : nat) (s : string) : String.length s <= n -> PyStr.take n s = s.
Proof.
  revert s. induction n as [|n IH]; intros [|a s]; cbn [PyStr.take String.length];
    intros Hle; try done; try lia.
  f_equal. apply IH. lia.
Qed.

Lemma take_length (n : nat) (s : string) :
  n <= String.length s -> String.length (PyStr.take n s) = n.
Proof.
  revert s. induction n as [|n IH]; intros [|a s]; cbn [PyStr.take String.length];
    intros Hle; try done; try lia.
  rewrite IH; lia.
Qed.

Lemma read_text_ok (pm : FS.perms) (p : FS.path) (fs : FS.state) (c : string) :
  FS.read_text pm p fs = Py.Ok c -> fs !! p = Some (FS.File c).
Proof.
  unfold FS.read_text. destruct (FS.through_file fs p); [done|].
  destruct (fs !! p) as [[|c']|]; try done.
  destruct (FS.readable pm p); [|done]. by intros [= ->].
Qed.

(** X10.  The overview the context block quotes is an excerpt of
    [overview/world-overview.md] of at most 503 characters: a file of up
    to 500 characters is quoted whole, a longer one is cut after 500
    characters and followed by three dots, and a file that cannot be read
    gives the empty excerpt, not a failure. *)
Theorem overview_is_a_bounded_excerpt (pm : FS.perms) (wp : FS.path) (fs : FS.state) :
  let ov := Creation._get_world_overview pm wp fs in
  let file := FS.div (FS.div wp "overview") "world-overview.md" in
  String.length ov <= 503
  /\ (forall c, FS.read_text pm file fs = Py.Ok c -> String.length c <= 500 -> ov = c)
  /\ (forall c, FS.read_text pm file fs = Py.Ok c -> 500 < String.length c ->
        ov = PyStr.take 500 c +:+ "..." /\ String.length ov = 503)
  /\ (forall e, FS.read_text pm file fs = Py.Raise e -> ov = EmptyString).
Proof.
  intros ov file. unfold ov, Creation._get_world_overview. cbv zeta. fold file.
  split; [|split; [|split]].
  - destruct (FS.exists_ fs file); [|cbn; lia].
    destruct (FS.read_text pm file fs) as [c|e]; [|cbn; lia].
    rewrite length_append. pose proof (take_length_le 500 c).
    destruct (decide (500 < String.length c)); cbn [String.length]; lia.
  - intros c Hread Hlen. rewrite Hread. apply read_text_ok in Hread.
    unfold FS.exists_. rewrite Hread. rewrite decide_False by lia.
    rewrite append_empty_r. by apply take_whole.
  - intros c Hread Hlen. rewrite Hread. apply read_text_ok in Hread.
    unfold FS.exists_. rewrite Hread. rewrite decide_True by lia.
    split; [done|]. rewrite length_append, take_length by lia. reflexivity.
  - intros e ->. by destruct (FS.exists_ fs file).
Qed.

(** ** The handler behind the router *)

Section RoutedCreation.
Variable pm : FS.perms.
Variable H : Helpers.
Variables create_stub_entries generate_entry_descriptions add_entry_frontmatter
          analyze_world_consistency : Tools.handler.

Local Abbreviation route :=
  (Tools.handle_entry_tool pm H create_stub_entries generate_entry_descriptions
     add_entry_frontmatter analyze_world_consistency).

(** X11.  Through the router, a [create_world_entry] call whose
    [entry_content] is a string or is left out never raises: the router
    returns the one text block of the handler, and the file system it
    leaves has lost nothing and has at most one regular file changed. *)
Theorem routed_creation_always_answers
    (arguments : option (gmap string Py.value)) (fs : FS.state) :
  Calls.content_typed arguments ->
  exists t fs' file,
    route "create_world_entry" arguments fs = (Py.Ok (text_content t), fs')
    /\ Tree.kept_except file fs fs'.
Proof.
  intros Htyped.
  assert (route "create_world_entry" arguments fs
          = Creation.create_world_entry pm H arguments fs) as Hroute.
  { unfold Tools.handle_entry_tool, Tools.ENTRY_HANDLERS, Tools.handler_for.
    rewrite decide_True by done. apply try_reraise. }
  destruct (create_world_entry_returns pm H arguments fs Htyped) as (r & fs' & Hrun).
  destruct (create_world_entry_outcome pm H arguments fs) as [Hshape Hreached].
  destruct (Hshape r) as [t ->]; [by rewrite Hrun|].
  destruct (reached_kept pm fs _ Hreached) as [file Hkept].
  exists t, fs', file. rewrite Hroute. split; [done|]. by rewrite Hrun in Hkept.
Qed.

End RoutedCreation.

(** ** Loading the [.env] file *)

Section Environment.
Implicit Types (env : TestFalApi.environ) (lines : list string).

Lemma putenv_ok (k v : string) env env1 :
  TestFalApi.putenv k v env = Py.Ok env1 ->
  env1 = <[k := v]> env /\ k <> EmptyString
  /\ TestFalApi.contains TestFalApi.nul k = false
  /\ TestFalApi.contains TestFalApi.nul v = false.
Proof.
  unfold TestFalApi.putenv.
  destruct (TestFalApi.contains TestFalApi.nul k); [done|].
  destruct (TestFalApi.contains TestFalApi.nul v); [done|].
  destruct k; [done|]. by intros [= <-].
Qed.

Lemma load_lines_subseteq lines env : env ⊆ (TestFalApi.load_lines lines env).2.
Proof.
  revert env. induction lines as [|line rest IH]; intros env; [done|].
  cbn [TestFalApi.load_lines].
  destruct (TestFalApi.assignment line) as [[k v]|]; [|apply IH].
  destruct (env !! k) eqn:Hk; [apply IH|].
  destruct (TestFalApi.putenv k v env) as [env1|e] eqn:Hput; [|done].
  apply putenv_ok in Hput as [-> _]. etrans; [|apply IH]. by apply insert_subseteq.
Qed.

Lemma load_lines_union lines env env' :
  TestFalApi.load_lines lines env = (Py.Ok tt, env') ->
  env' = env ∪ list_to_map (omap TestFalApi.assignment lines).
Proof.
  revert env. induction lines as [|line rest IH]; intros env.
  - intros [= <-]. cbn. by rewrite (right_id_L ∅ (∪)).
  - cbn [TestFalApi.load_lines omap list_omap].
    destruct (TestFalApi.assignment line) as [[k v]|]; [|apply IH].
    cbn [list_to_map foldr fst snd uncurry]. destruct (env !! k) as [old|] eqn:Hk.
    + intros ->%IH. apply map_eq. intros i. rewrite !lookup_union.
      destruct (decide (i = k)) as [->|Hne].
      * rewrite Hk. by rewrite !union_Some_l.
      * by rewrite lookup_insert_ne.
    + destruct (TestFalApi.putenv k v env) as [env1|e] eqn:Hput; [|done].
      apply putenv_ok in Hput as [-> _]. intros ->%IH.
      by rewrite <- insert_union_l, insert_union_r.
Qed.

Lemma load_lines_again lines env env' env'' :
  TestFalApi.load_lines lines env = (Py.Ok tt, env') -> env' ⊆ env'' ->
  TestFalApi.load_lines lines env'' = (Py.Ok tt, env'').
Proof.
  revert env. induction lines as [|line rest IH]; intros env; [done|].
  cbn [TestFalApi.load_lines].
  destruct (TestFalApi.assignment line) as [[k v]|]; [|apply IH].
  destruct (env !! k) as [old|] eqn:Hk.
  - intros Hrun Hsub. pose proof (load_lines_subseteq rest env) as Hkeep.
    rewrite Hrun in Hkeep.
    rewrite (lookup_weaken env env'' k old); [by eapply IH|done|by etrans].
  - destruct (TestFalApi.putenv k v env) as [env1|e] eqn:Hput; [|done].
    apply putenv_ok in Hput as [-> _]. intros Hrun Hsub.
    pose proof (load_lines_subseteq rest (<[k := v]> env)) as Hkeep. rewrite Hrun in Hkeep.
    rewrite (lookup_weaken (<[k := v]> env) env'' k v);
      [by eapply IH|apply lookup_insert_eq|by etrans].
Qed.

Lemma contains_lstrip (c : ascii) (s : string) :
  TestFalApi.contains c s = false -> TestFalApi.contains c (PyStr.lstrip s) = false.
Proof.
  induction s as [|a s IH]; [done|]. cbn [PyStr.lstrip].
  destruct (PyStr.is_space a); [|done].
  cbn [TestFalApi.contains]. destruct (decide (a = c)); [done|]. exact IH.
Qed.

Lemma contains_rstrip (c : ascii) (s : string) :
  TestFalApi.contains c s = false -> TestFalApi.contains c (PyStr.rstrip s) = false.
Proof.
  induction s as [|a s IH]; [done|]. cbn [PyStr.rstrip TestFalApi.contains].
  destruct (decide (a = c)) as [|Hne]; [done|]. intros Hs%IH.
  destruct (PyStr.rstrip s) as [|b r].
  - destruct (PyStr.is_space a); [done|]. cbn. by rewrite decide_False.
  - cbn [TestFalApi.contains]. by rewrite decide_False.
Qed.

Lemma contains_strip (c : ascii) (s : string) :
  TestFalApi.contains c s = false -> TestFalApi.contains c (PyStr.strip s) = false.
Proof. intros Hs. by apply contains_rstrip, contains_lstrip. Qed.

Lemma split_once_name (sep : ascii) (s : string) :
  TestFalApi.contains sep (TestFalApi.split_once sep s).1 = false.
Proof.
  induction s as [|a s IH]; [done|]. cbn [TestFalApi.split_once].
  destruct (decide (a = sep)); [done|].
  destruct (TestFalApi.split_once sep s) as [k v]. cbn in *. by rewrite decide_False.
Qed.

Lemma assignment_name (line k v : string) :
  TestFalApi.assignment line = Some (k, v) -> TestFalApi.contains "=" k = false.
Proof.
  unfold TestFalApi.assignment.
  destruct (_ && _); [|done].
  pose proof (split_once_name "=" (PyStr.strip line)) as Hname.
  destruct (TestFalApi.split_once "=" (PyStr.strip line)) as [k0 v0].
  intros [= <- <-]. by apply contains_strip.
Qed.

Lemma load_lines_added lines env (k v : string) :
  (TestFalApi.load_lines lines env).2 !! k = Some v ->
  env !! k = Some v
  \/ (k <> EmptyString /\ TestFalApi.contains "=" k = false
      /\ TestFalApi.contains TestFalApi.nul k = false
      /\ TestFalApi.contains TestFalApi.nul v = false).
Proof.
  revert env. induction lines as [|line rest IH]; intros env; [by left|].
  cbn [TestFalApi.load_lines].
  destruct (TestFalApi.assignment line) as [[k0 v0]|] eqn:Hline; [|apply IH].
  destruct (env !! k0) eqn:Hk; [apply IH|].
  destruct (TestFalApi.putenv k0 v0 env) as [env1|e] eqn:Hput; [|by left].
  apply putenv_ok in Hput as (-> & Hne & Hnul & Hval).
  intros [Hin|Hnew]%IH; [|by right].
  destruct (decide (k = k0)) as [->|Hother].
  - rewrite lookup_insert_eq in Hin. injection Hin as <-. right.
    eauto using assignment_name.
  - rewrite lookup_insert_ne in Hin by done. by left.
Qed.

(** X12.  Loading the [.env] file overwrites and removes no variable of
    the environment, whether it ends well or with an exception. *)
Theorem load_env_file_keeps_the_environment
    (pm : FS.perms) (here : FS.path) (fs : FS.state) env :
  env ⊆ (TestFalApi.load_env_file pm here fs env).2.
Proof.
  unfold TestFalApi.load_env_file. cbv zeta.
  destruct (FS.exists_ fs _); [|done].
  destruct (FS.read_text pm _ fs) as [content|e]; [|done].
  apply load_lines_subseteq.
Qed.

(** X13.  When the load ends well, the environment is the old one, plus
    the assignments of the file for the names that were not set, the
    first assignment of a name winning over later ones. *)
Theorem first_assignment_of_a_name_wins
    (pm : FS.perms) (here : FS.path) (fs : FS.state) (content : string) env env' :
  FS.read_text pm (FS.div here ".env") fs = Py.Ok content ->
  TestFalApi.load_env_file pm here fs env = (Py.Ok tt, env') ->
  env' = env ∪ list_to_map (omap TestFalApi.assignment (TestFalApi.readlines content)).
Proof.
  intros Hread. unfold TestFalApi.load_env_file. cbv zeta. rewrite Hread.
  apply read_text_ok in Hread. unfold FS.exists_. rewrite Hread.
  apply load_lines_union.
Qed.

(** X14.  Loading is idempotent: after a load that ended well, a second
    load of the same file ends well and changes nothing. *)
Theorem loading_twice_is_loading_once
    (pm : FS.perms) (here : FS.path) (fs : FS.state) env env' :
  TestFalApi.load_env_file pm here fs env = (Py.Ok tt, env') ->
  TestFalApi.load_env_file pm here fs env' = (Py.Ok tt, env').
Proof.
  unfold TestFalApi.load_env_file. cbv zeta.
  destruct (FS.exists_ fs _); [|by intros [= <-]].
  destruct (FS.read_text pm _ fs) as [content|e]; [|done].
  intros Hrun. by apply (load_lines_again _ env env').
Qed.

(** X15.  A variable the load adds has a name that is not empty and holds
    no [=] and no NUL character, and a value without a NUL character;
    this holds for what a load that ends with an exception has added
    before it, too. *)
Theorem load_env_file_adds_legal_names
    (pm : FS.perms) (here : FS.path) (fs : FS.state) env (k v : string) :
  (TestFalApi.load_env_file pm here fs env).2 !! k = Some v ->
  env !! k = Some v
  \/ (k <> EmptyString /\ TestFalApi.contains "=" k = false
      /\ TestFalApi.contains TestFalApi.nul k = false
      /\ TestFalApi.contains TestFalApi.nul v = false).
Proof.
  unfold TestFalApi.load_env_file. cbv zeta.
  destruct (FS.exists_ fs _); [|by left].
  destruct (FS.read_text pm _ fs) as [content|e]; [|by left].
  apply load_lines_added.
Qed.

End Environment.

(** ** Instances in the sample world *)

(** X5, two instances.  Nothing may be created inside [entries]: the
    [mkdir] makes [entries], fails at [entries/flora], the handler reports
    it and [entries] stays.  Nothing may be created inside
    [entries/flora]: the handler makes both directories, reports the
    refused write, and the directories stay. *)
Lemma closed_directory_write_is_reported :
  Creation.create_world_entry Sample.closed_entries
    (Sample.helpers_under Sample.closed_entries)
    (Example.red_oak "A tall tree.") Example.fs0
  = (Py.Ok (text_content
              "Error creating world entry: [Errno 13] Permission denied: '/base/world/entries/flora'"),
     Sample.fs_with_entries_dir)
  /\ Creation.create_world_entry Sample.closed_flora
       (Sample.helpers_under Sample.closed_flora)
       (Example.red_oak "A tall tree.") Example.fs0
     = (Py.Ok (text_content
                 "Error creating world entry: [Errno 13] Permission denied: '/base/world/entries/flora/red-oak.md'"),
        Sample.fs_with_flora_dir).
Proof.
  split.
  - destruct (failed_write_is_reported_not_undone Sample.closed_entries
                (Sample.helpers_under Sample.closed_entries)
                (default ∅ (Example.red_oak "A tall tree."))
                "world" "flora" "Red Oak" "A tall tree." Example.fs0)
      as [Hmkdir _]; [evaluate..|].
    destruct (Hmkdir (FS.os_error Py.PermissionError "13" "Permission denied"
                        ("flora" :: "entries" :: Example.world))
                Sample.fs_with_entries_dir) as [Hrun _]; [evaluate|].
    etrans; [exact Hrun|]. evaluate.
  - destruct (failed_write_is_reported_not_undone Sample.closed_flora
                (Sample.helpers_under Sample.closed_flora)
                (default ∅ (Example.red_oak "A tall tree."))
                "world" "flora" "Red Oak" "A tall tree." Example.fs0)
      as [_ Hwrite]; [evaluate..|].
    etrans.
    + apply (Hwrite Sample.fs_with_flora_dir
               (FS.os_error Py.PermissionError "13" "Permission denied" Example.red_oak_file));
        evaluate.
    + evaluate.
Defined.

(** X6, an instance: the report for [Red Oak]. *)
Lemma red_oak_report_names_the_file :
  let out :=
    Creation.create_world_entry Example.all_perms Example.helpers
      (Example.red_oak "A tall tree.") Example.fs0 in
  exists txt doc,
    out.1 = Py.Ok (text_content txt)
    /\ PyStr.occurs_in "Saved to: entries/flora/red-oak.md" txt
    /\ out.2 !! Example.red_oak_file = Some (FS.File doc)
    /\ out.2 !! ("flora" :: "entries" :: Example.world) = Some FS.Dir.
Proof.
  intros out.
  destruct (creation_report_names_the_file Example.all_perms Example.helpers
              (default ∅ (Example.red_oak "A tall tree."))
              "world" "flora" "Red Oak" "A tall tree." Example.fs0)
    as (txt & doc & Hout & Htxt & Hfile & Hdir); [evaluate..|].
  exists txt, doc. split; [exact Hout|]. split; [exact Htxt|]. split; [exact Hfile|exact Hdir].
Defined.

(** X7, an instance: [red oak] in [FLORA] is written over [Red Oak] in
    [flora]. *)
Lemma red_oak_in_other_letters :
  let out1 :=
    Creation.create_world_entry Example.all_perms Example.helpers
      (Example.red_oak "A tall tree.") Example.fs0 in
  let out2 :=
    Creation.create_world_entry Example.all_perms Example.helpers
      (Example.call "world" "FLORA" "red oak" (Py.PStr "A very tall tree.")) out1.2 in
  out1.2 !! Example.red_oak_file = Some (FS.File Example.red_oak_document)
  /\ out2.2 !! Example.red_oak_file
     = Some (FS.File (Calls.entry_document Example.helpers "A very tall tree."
                        "Plants of the world." "FLORA"))
  /\ dom out2.2 = dom out1.2.
Proof.
  intros out1 out2.
  destruct (same_slugs_share_one_file Example.all_perms Example.helpers
              (default ∅ (Example.red_oak "A tall tree."))
              (default ∅ (Example.call "world" "FLORA" "red oak" (Py.PStr "A very tall tree.")))
              "world" "flora" "FLORA" "Red Oak" "red oak" "A tall tree." "A very tall tree."
              Example.fs0)
    as (H1 & H2 & H3); [evaluate..|].
  split; [|split].
  - etrans; [exact H1|]. evaluate.
  - etrans; [exact H2|]. evaluate.
  - exact H3.
Defined.

(** X8, an instance: a [style] argument changes nothing. *)
Lemma style_argument_is_ignored :
  Creation.create_world_entry Example.all_perms Example.helpers
    (Some Sample.red_oak_styled) Example.fs0
  = Creation.create_world_entry Example.all_perms Example.helpers
      (Example.red_oak "A tall tree.") Example.fs0.
Proof.
  apply (only_four_arguments_matter Example.all_perms Example.helpers
           Sample.red_oak_styled (default ∅ (Example.red_oak "A tall tree.")) Example.fs0).
  - intros E. apply (f_equal (fun m => m !! "taxonomy")) in E. vm_compute in E. discriminate E.
  - intros E. apply (f_equal (fun m => m !! "taxonomy")) in E. vm_compute in E. discriminate E.
  - evaluate.
  - evaluate.
  - evaluate.
  - evaluate.
Defined.

(** X9, an instance: [Red Oak] created twice with the same content. *)
Lemma red_oak_repeated :
  let out1 :=
    Creation.create_world_entry Example.all_perms Example.helpers
      (Example.red_oak "A tall tree.") Example.fs0 in
  let out2 :=
    Creation.create_world_entry Example.all_perms Example.helpers
      (Example.red_oak "A tall tree.") out1.2 in
  out2.2 = out1.2.
Proof.
  intros out1 out2.
  apply (repeated_call_changes_nothing Example.all_perms Example.helpers
           (default ∅ (Example.red_oak "A tall tree."))
           "world" "flora" "Red Oak" "A tall tree." Example.fs0); evaluate.
Defined.

(** X11, an instance: the call with a number as [world_directory], sent
    through the router. *)
Lemma routed_numeric_world_is_answered :
  exists t fs' file,
    Tools.handle_entry_tool Example.all_perms Example.helpers
      Example.other_tool Example.other_tool Example.other_tool Example.other_tool
      "create_world_entry" Sample.numeric_world Example.fs0
    = (Py.Ok (text_content t), fs')
    /\ Tree.kept_except file Example.fs0 fs'.
Proof.
  apply (routed_creation_always_answers Example.all_perms Example.helpers
           Example.other_tool Example.other_tool Example.other_tool Example.other_tool
           Sample.numeric_world Example.fs0).
  exists "A tall tree.". evaluate.
Defined.

(** X13, an instance: the sample [.env] file sets [FAL_KEY] to its first
    value and leaves [MODE] as the environment has it. *)
Lemma sample_env_file_loaded :
  (TestFalApi.load_env_file Example.all_perms ["src"] Sample.fs_env Sample.environ0).2
  = <["FAL_KEY" := "abc"]> Sample.environ0.
Proof.
  etrans.
  - apply (first_assignment_of_a_name_wins Example.all_perms ["src"] Sample.fs_env
             Sample.env_text Sample.environ0); evaluate.
  - evaluate.
Defined.

(** X14, an instance: the sample [.env] file loaded a second time. *)
Lemma sample_env_file_loaded_twice :
  TestFalApi.load_env_file Example.all_perms ["src"] Sample.fs_env
    (<["FAL_KEY" := "abc"]> Sample.environ0)
  = (Py.Ok tt, <["FAL_KEY" := "abc"]> Sample.environ0).
Proof.
  apply (loading_twice_is_loading_once Example.all_perms ["src"] Sample.fs_env
           Sample.environ0 (<["FAL_KEY" := "abc"]> Sample.environ0)).
  evaluate.
Defined.

(** X15, an instance: [FAL_KEY], which the sample [.env] file adds. *)
Lemma sample_env_file_adds_fal_key :
  Sample.environ0 !! "FAL_KEY" = Some "abc"
  \/ ("FAL_KEY" <> EmptyString /\ TestFalApi.contains "=" "FAL_KEY" = false
      /\ TestFalApi.contains TestFalApi.nul "FAL_KEY" = false
      /\ TestFalApi.contains TestFalApi.nul "abc" = false).
Proof.
  apply (load_env_file_adds_legal_names Example.all_perms ["src"] Sample.fs_env
           Sample.environ0 "FAL_KEY" "abc").
  evaluate.
Defined.

(** ** The two calls of the workflow *)

Section Workflow.
Variable pm : FS.perms.
Variable H : Helpers.

Local Abbreviation cwe := (Creation.create_world_entry pm H).

(** A call that is answered without an error names a world, a taxonomy and
    an entry. *)
Lemma answered_names (d : gmap string Py.value) (w t n c : string)
    (fs fs' : FS.state) (r : list TextContent) :
  d <> ∅ -> Calls.names_are d w t n -> Calls.content_is d c ->
  cwe (Some d) fs = (Py.Ok r, fs') -> Calls.is_error r = false ->
  w <> EmptyString /\ t <> EmptyString /\ n <> EmptyString.
Proof.
  intros Hd (Hw & Ht & Hn) Hc Hrun Hok.
  rewrite (create_world_entry_typed pm H d c fs Hd Hc), Hw, Ht, Hn in Hrun.
  destruct w, t, n; simpl in Hrun; try (injection Hrun as <- <-; done); done.
Qed.

(** A call with blank content leaves the file system as it is. *)
Lemma blank_content_keeps_state (d : gmap string Py.value) (c : string) (fs : FS.state) :
  Calls.content_is d c -> PyStr.strip c = EmptyString -> (cwe (Some d) fs).2 = fs.
Proof.
  intros Hc Hblank. destruct (decide (d = ∅)) as [->|Hd].
  { unfold Creation.create_world_entry. by rewrite bool_decide_eq_true_2. }
  rewrite (create_world_entry_typed pm H d c fs Hd Hc).
  destruct (Py.all _); [|done].
  destruct (create_world_entry_try_blank pm H (Calls.arg d "world_directory")
              (Calls.arg d "taxonomy") (Calls.arg d "entry_name") c fs Hblank) as [_ Hfs].
  by destruct (Creation.create_world_entry_try pm H _ _ _ (Py.PStr c) fs) as [[r|e] fs'].
Qed.

(** X16.  The two calls of the workflow agree.  When a call with blank
    content is followed by a call for the same world, taxonomy and entry
    with content, and the second is answered without an error, then the
    first call returned the context block and changed nothing, and the
    creation report of the second quotes the same world context. *)
Theorem context_call_then_content_call
    (d1 d2 : gmap string Py.value) (w t n c0 c : string) (fs : FS.state) :
  Calls.names_are d1 w t n -> Calls.names_are d2 w t n ->
  Calls.content_is d1 c0 -> PyStr.strip c0 = EmptyString ->
  Calls.content_is d2 c -> PyStr.nonempty (PyStr.strip c) = true ->
  let out1 := cwe (Some d1) fs in
  let out2 := cwe (Some d2) out1.2 in
  Calls.answered out2 = true ->
  let wp := Calls.resolved H w in
  let ct := Calls.slug H t in
  let ctx := Calls.world_context pm H fs wp ct (Py.PStr t) in
  out1 = (Py.Ok (text_content (Creation.context_only_text (Py.PStr n) (Py.PStr t) ctx)), fs)
  /\ exists relative_path,
       out2.1 = Py.Ok (text_content
                         (Creation.created_text (Py.PStr n) ctx relative_path
                            (extract_taxonomy_context H fs wp ct) EmptyString
                            (generate_stub_analysis H out2.2 wp (Py.PStr n) (Py.PStr t) c))).
Proof.
  intros Hn1 Hn2 Hc0 Hblank Hc Hcontent out1 out2 Hans wp ct ctx.
  assert (out1.2 = fs) as Hfs by by apply (blank_content_keeps_state d1 c0).
  unfold out2 in *. rewrite Hfs in *.
  destruct (answered_inv _ Hans) as (r & Hrun & Hok).
  assert (d2 <> ∅) as Hd2.
  { intros ->. unfold Calls.content_is, Calls.arg, Py.get in Hc.
    rewrite lookup_empty in Hc. injection Hc as <-. done. }
  destruct (answered_names d2 w t n c fs _ r Hd2 Hn2 Hc Hrun Hok) as (Hw & Ht & Hn).
  destruct (created_inv pm H d2 w t n c fs _ r Hn2 Hc Hcontent Hrun Hok)
    as (Hworld & Hover & _).
  split.
  - by apply (blank_content_context_only pm H d1 w t n c0 fs).
  - destruct (written_document pm H d2 w t n c fs Hn2 Hc Hcontent Hans)
      as (fs1 & rel & _ & _ & _ & Hout). by exists rel.
Qed.

End Workflow.

(** X16, an instance: [Red Oak] asked for without content, then with
    it. *)
Lemma red_oak_in_two_calls :
  let out1 :=
    Creation.create_world_entry Example.all_perms Example.helpers
      (Example.red_oak "  ") Example.fs0 in
  let out2 :=
    Creation.create_world_entry Example.all_perms Example.helpers
      (Example.red_oak "A tall tree.") out1.2 in
  let ctx :=
    Calls.world_context Example.all_perms Example.helpers Example.fs0 Example.world "flora"
      (Py.PStr "flora") in
  out1 = (Py.Ok (text_content
                   (Creation.context_only_text (Py.PStr "Red Oak") (Py.PStr "flora") ctx)),
          Example.fs0)
  /\ exists relative_path,
       out2.1 = Py.Ok (text_content
                         (Creation.created_text (Py.PStr "Red Oak") ctx relative_path
                            "Plants of the world." EmptyString EmptyString)).
Proof.
  intros out1 out2 ctx.
  destruct (context_call_then_content_call Example.all_perms Example.helpers
              (default ∅ (Example.red_oak "  ")) (default ∅ (Example.red_oak "A tall tree."))
              "world" "flora" "Red Oak" "  " "A tall tree." Example.fs0)
    as [Hfirst [rel Hsecond]]; [evaluate..|].
  split.
  - etrans; [exact Hfirst|]. evaluate.
  - exists rel. etrans; [exact Hsecond|]. evaluate.
Defined.

(** ** The checks that come after the [strip] of line 73 *)

Section StripBeforeChecks.
Variable pm : FS.perms.
Variable H : Helpers.

Local Abbreviation cwe := (Creation.create_world_entry pm H).

Lemma without_taxonomy_lookup (w n : string) (c : Py.value) :
  Sample.without_taxonomy w n c <> ∅
  /\ Calls.arg (Sample.without_taxonomy w n c) "world_directory" = Py.PStr w
  /\ Calls.arg (Sample.without_taxonomy w n c) "taxonomy" = Py.PStr EmptyString
  /\ Calls.arg (Sample.without_taxonomy w n c) "entry_name" = Py.PStr n
  /\ Calls.arg (Sample.without_taxonomy w n c) "entry_content" = c.
Proof.
  unfold Sample.without_taxonomy. simpl. split; [apply insert_non_empty|].
  unfold Calls.arg, Py.get. by simplify_map_eq.
Qed.

(** A call whose [entry_content] is [None] raises at the [strip] of line
    73, whatever its other arguments are. *)
Lemma null_content_raises (w t n : string) (fs : FS.state) :
  cwe (Example.call w t n Py.PNone) fs = (Py.Raise (Py.attribute_error Py.PNone "strip"), fs).
Proof.
  destruct (Example.call w t n Py.PNone) as [d|] eqn:Hd; [|done].
  apply call_lookup in Hd as (Hne & _ & _ & _ & Hc).
  unfold Creation.create_world_entry. rewrite bool_decide_eq_false_2 by done.
  unfold Calls.arg in Hc. by rewrite Hc.
Qed.

(** The mapping of a call with four strings. *)
Lemma call_strings (w t n c : string) :
  exists d, Example.call w t n (Py.PStr c) = Some d
            /\ Calls.names_are d w t n /\ Calls.content_is d c.
Proof.
  destruct (Example.call w t n (Py.PStr c)) as [d|] eqn:Hd; [|done].
  apply call_lookup in Hd as (_ & Hw & Ht & Hn & Hc). by exists d.
Qed.

(** C6.  The failing input: a call without [taxonomy] whose
    [entry_content] is [None] (JSON [null]).  A required argument is
    missing, and the same call with a string as content gets the error
    text of the argument check of line 75; with [None] the debug print of
    line 73 calls [strip] on the content before that check and outside the
    [try] block, so the handler raises an [AttributeError] and returns no
    error text. *)
Theorem missing_argument_check_comes_after_strip (w n : string) (fs : FS.state) :
  Calls.missing_required (Some (Sample.without_taxonomy w n Py.PNone))
  /\ cwe (Some (Sample.without_taxonomy w n (Py.PStr EmptyString))) fs
     = (Py.Ok (text_content "Error: world_directory, taxonomy, and entry_name are required"),
        fs)
  /\ cwe (Some (Sample.without_taxonomy w n Py.PNone)) fs
     = (Py.Raise (Py.attribute_error Py.PNone "strip"), fs).
Proof.
  split; [|split].
  - destruct (without_taxonomy_lookup w n Py.PNone) as (_ & Hw & Ht & Hn & _).
    unfold Calls.missing_required, Py.all, forallb. rewrite Hw, Ht. simpl.
    by destruct (PyStr.nonempty w).
  - destruct (without_taxonomy_lookup w n (Py.PStr EmptyString)) as (Hne & Hw & Ht & Hn & Hc).
    rewrite (create_world_entry_typed pm H _ EmptyString fs Hne Hc).
    unfold Py.all, forallb. rewrite Hw, Ht. simpl. by destruct (PyStr.nonempty w).
  - destruct (without_taxonomy_lookup w n Py.PNone) as (Hne & _ & _ & _ & Hc).
    unfold Creation.create_world_entry. rewrite bool_decide_eq_false_2 by done.
    unfold Calls.arg in Hc. by rewrite Hc.
Qed.

(** C7.  The failing input: a call for a world directory that does not
    exist, whose [entry_content] is [None].  The same call with a string
    as content gets the error text that names the directory; with [None]
    the [strip] of line 73 raises before the directory is looked at, and
    the handler returns no error text. *)
Theorem missing_world_check_comes_after_strip (w t n : string) (fs : FS.state) :
  w <> EmptyString -> t <> EmptyString -> n <> EmptyString ->
  FS.exists_ fs (Calls.resolved H w) = false ->
  cwe (Example.call w t n (Py.PStr EmptyString)) fs
    = (Py.Ok (text_content (Creation.missing_world_text (Calls.resolved H w))), fs)
  /\ cwe (Example.call w t n Py.PNone) fs
     = (Py.Raise (Py.attribute_error Py.PNone "strip"), fs).
Proof.
  intros Hw Ht Hn Hworld. split; [|apply null_content_raises].
  destruct (call_strings w t n EmptyString) as (d & -> & Hnames & Hc).
  rewrite (create_world_entry_strings pm H d w t n EmptyString fs) by done.
  rewrite create_world_entry_try_strings. simpl. by rewrite Hworld.
Qed.

(** C2.  The failing input: a call for a taxonomy without an overview
    file, in an existing world, whose [entry_content] is [None].  The same
    call with a string as content gets the error text that lists the
    existing taxonomies; with [None] the [strip] of line 73 raises before
    the taxonomy is looked for, and the handler returns no listing. *)
Theorem missing_taxonomy_check_comes_after_strip (w t n : string) (fs : FS.state) :
  w <> EmptyString -> t <> EmptyString -> n <> EmptyString ->
  FS.exists_ fs (Calls.resolved H w) = true ->
  FS.exists_ fs (Creation.taxonomy_overview_path (Calls.resolved H w) (Calls.slug H t)) = false ->
  cwe (Example.call w t n (Py.PStr EmptyString)) fs
    = (Py.Ok (text_content
                (Creation.missing_taxonomy_text (Py.PStr t)
                   (get_existing_taxonomies H fs (Calls.resolved H w)))), fs)
  /\ cwe (Example.call w t n Py.PNone) fs
     = (Py.Raise (Py.attribute_error Py.PNone "strip"), fs).
Proof.
  intros Hw Ht Hn Hworld Hover. split; [|apply null_content_raises].
  destruct (call_strings w t n EmptyString) as (d & -> & Hnames & Hc).
  rewrite (create_world_entry_strings pm H d w t n EmptyString fs) by done.
  rewrite create_world_entry_try_strings. simpl. by rewrite Hworld, Hover.
Qed.

End StripBeforeChecks.

(** C7, an instance: the world [atlantis], which the sample file system
    does not have. *)
Lemma atlantis_with_null_content :
  Creation.create_world_entry Example.all_perms Example.helpers
    (Example.call "atlantis" "flora" "Red Oak" (Py.PStr EmptyString)) Example.fs0
  = (Py.Ok (text_content "Error: World directory /base/atlantis does not exist"), Example.fs0)
  /\ Creation.create_world_entry Example.all_perms Example.helpers
       (Example.call "atlantis" "flora" "Red Oak" Py.PNone) Example.fs0
     = (Py.Raise (Py.Exn Py.AttributeError "'NoneType' object has no attribute 'strip'"),
        Example.fs0).
Proof.
  destruct (missing_world_check_comes_after_strip Example.all_perms Example.helpers
              "atlantis" "flora" "Red Oak" Example.fs0) as [Htext Hraise]; [evaluate..|].
  split; [etrans; [exact Htext|evaluate]|exact Hraise].
Defined.

(** C2, an instance: the taxonomy [rocks], which the sample world does not
    have. *)
Lemma rocks_with_null_content :
  Creation.create_world_entry Example.all_perms Example.helpers
    (Example.call "world" "rocks" "Granite" (Py.PStr EmptyString)) Example.fs0
  = (Py.Ok (text_content
              (Creation.missing_taxonomy_text (Py.PStr "rocks") ["Flora"; "Fauna"])),
     Example.fs0)
  /\ Creation.create_world_entry Example.all_perms Example.helpers
       (Example.call "world" "rocks" "Granite" Py.PNone) Example.fs0
     = (Py.Raise (Py.Exn Py.AttributeError "'NoneType' object has no attribute 'strip'"),
        Example.fs0).
Proof.
  destruct (missing_taxonomy_check_comes_after_strip Example.all_perms Example.helpers
              "world" "rocks" "Granite" Example.fs0) as [Htext Hraise]; [evaluate..|].
  split; [etrans; [exact Htext|evaluate]|exact Hraise].
Defined.
